(** * The todo list reconciler of [brexn/todos]

    A shallow embedding of the client-side list logic of the todo page.
    The repository holds the page component in two revisions that talk to
    the remote store:

    - the optimistic reconciler (the second file of [src/unnamed/part_000]):
      local edits are applied at once, confirmed or rolled back when the
      store answers, and the change feed skips the echoes of local edits
      through the [localOperations] set (module [Reconciler]);
    - [src/app/page.tsx]: local edits only issue the remote call and the
      change feed alone updates the list (module [Page]).

    The first file of [src/unnamed/part_000] is the page before it had a
    remote store; it has neither requests nor a feed (module [LocalPage]).

    React state ([useState]) is modelled by explicit state passing: every
    handler is a function on [State]; a functional update
    [setTodos(prev => f(prev))] is the field update [setTodos f].  An
    [async] handler is cut at its [await]: the part before it returns the
    request it issues (if any) together with the values its closure keeps,
    the part after it takes the store's answer.  The [todos] a handler
    reads directly ([todos.find]) is the list of the render that created
    the handler; the model takes it to be the current list. *)

From Stdlib Require Import ZArith Lia Ascii String DecimalString.
From stdpp Require Import base decidable option list sorting gmap strings pretty.

Local Open Scope string_scope.

(** ** JavaScript strings

    Strings are sequences of 8-bit code units.  [String.prototype.trim]
    removes white space and line terminators from both ends; in the range
    of one code unit these are TAB, LF, VT, FF, CR, SP and NBSP. *)

Module JsString.

Definition isWhiteSpace (c : ascii) : bool :=
  match N_of_ascii c with
  | 9%N | 10%N | 11%N | 12%N | 13%N | 32%N | 160%N => true
  | _ => false
  end.

Fixpoint trimStart (s : string) : string :=
  match s with
  | EmptyString => EmptyString
  | String c r => if isWhiteSpace c then trimStart r else s
  end.

Fixpoint trimEnd (s : string) : string :=
  match s with
  | EmptyString => EmptyString
  | String c r =>
      match trimEnd r with
      | EmptyString => if isWhiteSpace c then EmptyString else String c EmptyString
      | r' => String c r'
      end
  end.

Definition trim (s : string) : string := trimEnd (trimStart s).

(** [!s] on a string: only the empty string is falsy. *)
Definition falsy (s : string) : bool := bool_decide (s = "").

End JsString.

(** ** The [Todo] interface *)

Module Todo.

Record t := mk {
  id : string;
  user_id : string;
  text : string;
  completed : bool;
  created_at : string;
  updated_at : string
}.

#[global] Instance eq_dec : EqDecision t.
Proof. solve_decision. Defined.

(** [{ ...t, completed: b }] *)
Definition with_completed (b : bool) (x : t) : t :=
  {| id := id x; user_id := user_id x; text := text x; completed := b;
     created_at := created_at x; updated_at := updated_at x |}.

End Todo.

(** The payload of a [postgres_changes] notification.  The handler reads
    [new.id] for INSERT and UPDATE, [old.id] for DELETE, and stores [new]
    in the list; the record on the side an event kind does not carry is
    never read. *)
Record Payload := {
  eventType : string;
  new : Todo.t;
  old : Todo.t
}.

(** What [await supabase.from('todos')...] gives back: [{ data }] without
    error, [{ error }], or a rejected promise (the [catch] branch). *)
Inductive Response (A : Type) :=
  | Success (data : A)
  | Error
  | Thrown.
Arguments Success {A} data.
Arguments Error {A}.
Arguments Thrown {A}.

(** The remote calls the handlers issue. *)
Inductive Request :=
  | Insert (user_id text : string) (completed : bool)
  | Update (id user_id : string) (completed : bool)
  | Delete (id user_id : string).

(** The clock reads of one [addTodo]: [Date.now()] for the placeholder id
    and the two [new Date().toISOString()]. *)
Record Clock := {
  date_now : N;
  iso_created : string;
  iso_updated : string
}.

(** [todos.find(t => t.id === i)] *)
Definition findById (i : string) (l : list Todo.t) : option Todo.t :=
  List.find (λ t, bool_decide (Todo.id t = i)) l.

(** [todos.filter(todo => todo.id !== i)] *)
Definition removeById (i : string) (l : list Todo.t) : list Todo.t :=
  filter (λ todo, Todo.id todo ≠ i) l.

(** [todos.map(todo => todo.id === i ? r : todo)] *)
Definition replaceById (i : string) (r : Todo.t) (l : list Todo.t) : list Todo.t :=
  (λ todo, if decide (Todo.id todo = i) then r else todo) <$> l.

(** [todos.map(t => t.id === i ? { ...t, completed: f(t) } : t)] *)
Definition completeById (i : string) (f : Todo.t → bool) (l : list Todo.t) : list Todo.t :=
  (λ t, if decide (Todo.id t = i) then Todo.with_completed (f t) t else t) <$> l.

(** The number of entries of a list that carry a given id. *)
Definition countId (i : string) (l : list Todo.t) : nat :=
  length (filter (λ t, Todo.id t = i) l).

(** ** The optimistic reconciler *)

Module Reconciler.

(** [localOperations] is the [Set<string>] behind the ref; [timers] are the
    pending [setTimeout] callbacks, each with the milliseconds left and the
    key it will delete. *)
Record State := {
  todos : list Todo.t;
  inputValue : string;
  user : option string;
  localOperations : gset string;
  timers : list (N * string)
}.

Definition setTodos (f : list Todo.t → list Todo.t) (s : State) : State :=
  {| todos := f (todos s); inputValue := inputValue s; user := user s;
     localOperations := localOperations s; timers := timers s |}.

Definition setInputValue (v : string) (s : State) : State :=
  {| todos := todos s; inputValue := v; user := user s;
     localOperations := localOperations s; timers := timers s |}.

(** The template literal [`${operation}_${id}`]. *)
Definition operationKey (id operation : string) : string :=
  operation +:+ "_" +:+ id.

Definition addLocalOperation (id operation : string) (s : State) : State :=
  {| todos := todos s; inputValue := inputValue s; user := user s;
     localOperations := {[ operationKey id operation ]} ∪ localOperations s;
     timers := timers s ++ [(5000%N, operationKey id operation)] |}.

Definition isLocalOperation (id operation : string) (s : State) : bool :=
  bool_decide (operationKey id operation ∈ localOperations s).

(** [d] milliseconds pass: the callbacks that are due run (each deletes its
    key), the others have [d] less to wait. *)
Definition elapse (d : N) (s : State) : State :=
  {| todos := todos s; inputValue := inputValue s; user := user s;
     localOperations :=
       localOperations s ∖
         list_to_set (snd <$> filter (λ tk, (fst tk ≤ d)%N) (timers s));
     timers :=
       (λ tk, ((fst tk - d)%N, snd tk)) <$> filter (λ tk, (d < fst tk)%N) (timers s) |}.

Definition handleRealtimeChange (payload : Payload) (s : State) : State :=
  let newRecord := new payload in
  let oldRecord := old payload in
  if bool_decide (eventType payload = "INSERT") then
    if isLocalOperation (Todo.id newRecord) "INSERT" s then s
    else
      setTodos (λ currentTodos,
        match findById (Todo.id newRecord) currentTodos with
        | Some _ => currentTodos
        | None => newRecord :: currentTodos
        end) s
  else if bool_decide (eventType payload = "UPDATE") then
    if isLocalOperation (Todo.id newRecord) "UPDATE" s then s
    else
      setTodos (λ currentTodos,
        match findById (Todo.id newRecord) currentTodos with
        | None => currentTodos
        | Some _ => replaceById (Todo.id newRecord) newRecord currentTodos
        end) s
  else if bool_decide (eventType payload = "DELETE") then
    if isLocalOperation (Todo.id oldRecord) "DELETE" s then s
    else
      setTodos (λ currentTodos,
        match findById (Todo.id oldRecord) currentTodos with
        | None => currentTodos
        | Some _ => removeById (Todo.id oldRecord) currentTodos
        end) s
  else s.

(** *** addTodo *)

Definition tempTodo (c : Clock) (uid input : string) : Todo.t :=
  {| Todo.id := "temp_" +:+ pretty (date_now c);
     Todo.user_id := uid;
     Todo.text := JsString.trim input;
     Todo.completed := false;
     Todo.created_at := iso_created c;
     Todo.updated_at := iso_updated c |}.

(** Up to the [await]: the guard, the optimistic insert, the cleared input
    box, and the insert request with the placeholder the closure keeps. *)
Definition addTodo_start (c : Clock) (s : State) : State * option (Request * Todo.t) :=
  match user s with
  | Some uid =>
      if JsString.falsy (JsString.trim (inputValue s)) then (s, None)
      else
        let temp := tempTodo c uid (inputValue s) in
        (setInputValue "" (setTodos (cons temp) s),
         Some (Insert uid (Todo.text temp) false, temp))
  | None => (s, None)
  end.

(** After the [await]. *)
Definition addTodo_settle (temp : Todo.t) (r : Response Todo.t) (s : State) : State :=
  match r with
  | Success data =>
      addLocalOperation (Todo.id data) "INSERT"
        (setTodos (replaceById (Todo.id temp) data) s)
  | Error | Thrown =>
      setInputValue (Todo.text temp) (setTodos (removeById (Todo.id temp)) s)
  end.

(** An [addTodo] whose answer arrives before anything else happens. *)
Definition addTodo (c : Clock) (r : Response Todo.t) (s : State) : State :=
  match addTodo_start c s with
  | (s', Some (_, temp)) => addTodo_settle temp r s'
  | (s', None) => s'
  end.

(** *** toggleTodo *)

Definition toggleTodo_start (id : string) (s : State) : State * option (Request * Todo.t) :=
  match user s with
  | None => (s, None)
  | Some uid =>
      match findById id (todos s) with
      | None => (s, None)
      | Some todo =>
          (setTodos (completeById id (λ t, negb (Todo.completed t))) s,
           Some (Update id uid (negb (Todo.completed todo)), todo))
      end
  end.

Definition toggleTodo_settle (id : string) (todo : Todo.t) (r : Response unit) (s : State) : State :=
  match r with
  | Success _ => addLocalOperation id "UPDATE" s
  | Error | Thrown => setTodos (completeById id (λ _, Todo.completed todo)) s
  end.

Definition toggleTodo (id : string) (r : Response unit) (s : State) : State :=
  match toggleTodo_start id s with
  | (s', Some (_, todo)) => toggleTodo_settle id todo r s'
  | (s', None) => s'
  end.

(** *** deleteTodo *)

Definition deleteTodo_start (id : string) (s : State) : State * option (Request * Todo.t) :=
  match user s with
  | None => (s, None)
  | Some uid =>
      match findById id (todos s) with
      | None => (s, None)
      | Some todoToDelete =>
          (setTodos (removeById id) s, Some (Delete id uid, todoToDelete))
      end
  end.

Definition deleteTodo_settle (id : string) (todoToDelete : Todo.t) (r : Response unit) (s : State) : State :=
  match r with
  | Success _ => addLocalOperation id "DELETE" s
  | Error | Thrown => setTodos (cons todoToDelete) s
  end.

Definition deleteTodo (id : string) (r : Response unit) (s : State) : State :=
  match deleteTodo_start id s with
  | (s', Some (_, todoToDelete)) => deleteTodo_settle id todoToDelete r s'
  | (s', None) => s'
  end.

End Reconciler.

(** ** The page of [src/app/page.tsx]

    No optimistic edits: a handler issues its remote call and leaves the
    list to the change feed. *)

Module Page.

Record State := {
  todos : list Todo.t;
  inputValue : string;
  user : option string
}.

Definition setTodos (f : list Todo.t → list Todo.t) (s : State) : State :=
  {| todos := f (todos s); inputValue := inputValue s; user := user s |}.

Definition setInputValue (v : string) (s : State) : State :=
  {| todos := todos s; inputValue := v; user := user s |}.

Definition handleRealtimeChange (payload : Payload) (s : State) : State :=
  let newRecord := new payload in
  let oldRecord := old payload in
  if bool_decide (eventType payload = "INSERT") then
    setTodos (λ currentTodos, newRecord :: currentTodos) s
  else if bool_decide (eventType payload = "UPDATE") then
    setTodos (replaceById (Todo.id newRecord) newRecord) s
  else if bool_decide (eventType payload = "DELETE") then
    setTodos (removeById (Todo.id oldRecord)) s
  else s.

Definition addTodo_start (s : State) : State * option Request :=
  match user s with
  | Some uid =>
      if JsString.falsy (JsString.trim (inputValue s)) then (s, None)
      else (s, Some (Insert uid (JsString.trim (inputValue s)) false))
  | None => (s, None)
  end.

Definition addTodo_settle (r : Response unit) (s : State) : State :=
  match r with
  | Success _ => setInputValue "" s
  | Error | Thrown => s
  end.

Definition addTodo (r : Response unit) (s : State) : State :=
  match addTodo_start s with
  | (s', Some _) => addTodo_settle r s'
  | (s', None) => s'
  end.

Definition toggleTodo_start (id : string) (s : State) : State * option Request :=
  match user s with
  | None => (s, None)
  | Some uid =>
      match findById id (todos s) with
      | None => (s, None)
      | Some todo => (s, Some (Update id uid (negb (Todo.completed todo))))
      end
  end.

Definition deleteTodo_start (id : string) (s : State) : State * option Request :=
  match user s with
  | None => (s, None)
  | Some uid => (s, Some (Delete id uid))
  end.

End Page.

(** ** Runs of [addTodo]

    [created_at] is an ISO 8601 string that the code never compares; the
    order of the list is stated through [instant], the point in time such a
    string denotes. *)

Definition sortedDesc (instant : string → Z) (l : list Todo.t) : Prop :=
  StronglySorted
    (λ a b, (instant (Todo.created_at b) ≤ instant (Todo.created_at a))%Z) l.

Definition instants (instant : string → Z) (l : list Todo.t) : list Z :=
  (λ t, instant (Todo.created_at t)) <$> l.

(** One use of the add form: the text typed into the input box, the clock
    at the click, and the store's answer. *)
Record AddOp := {
  typed : string;
  clock : Clock;
  answer : Response Todo.t
}.

(** The states an observer sees around one add: with the text typed, after
    the optimistic insert, after the store's answer. *)
Record Observation := {
  op : AddOp;
  before : Reconciler.State;
  optimistic : Reconciler.State;
  settled : Reconciler.State
}.

Definition observe (o : AddOp) (s : Reconciler.State) : Observation :=
  let s0 := Reconciler.setInputValue (typed o) s in
  {| op := o;
     before := s0;
     optimistic := fst (Reconciler.addTodo_start (clock o) s0);
     settled := Reconciler.addTodo (clock o) (answer o) s0 |}.

Fixpoint observations (ops : list AddOp) (s : Reconciler.State) : list Observation :=
  match ops with
  | [] => []
  | o :: rest => observe o s :: observations rest (settled (observe o s))
  end.

(** The placeholder id of an add, and the ids and timestamps it brings into
    the list. *)
Definition placeholderId (o : AddOp) : string :=
  "temp_" +:+ pretty (date_now (clock o)).

Definition storeIds (o : AddOp) : list string :=
  match answer o with
  | Success data => [Todo.id data]
  | Error | Thrown => []
  end.

Definition stamps (instant : string → Z) (o : AddOp) : list Z :=
  instant (iso_created (clock o)) ::
  match answer o with
  | Success data => [instant (Todo.created_at data)]
  | Error | Thrown => []
  end.

(** Timestamps strictly increase along the adds: every timestamp of an add
    is later than every [created_at] seen so far ([seen]: those of the
    starting list and of the adds before it).  Placeholder ids are locally
    unique: the id of an add is none of the ids known so far ([known]:
    those of the starting list and those the store assigned before). *)
Fixpoint increasing (instant : string → Z) (known : list string) (seen : list Z)
    (ops : list AddOp) : Prop :=
  match ops with
  | [] => True
  | o :: rest =>
      (placeholderId o ∉ known) ∧
      Forall (λ z, Forall (λ z', (z' < z)%Z) seen) (stamps instant o) ∧
      increasing instant (storeIds o ++ known)%list (stamps instant o ++ seen)%list rest
  end.

(** ** Lists of todos *)

Definition ids (l : list Todo.t) : list string := Todo.id <$> l.

(** ** The progress counters

    [todos.filter((todo) => todo.completed).length] and [todos.length]. *)

Definition completedCount (l : list Todo.t) : nat :=
  length (filter (λ todo, Todo.completed todo = true) l).

Definition totalCount (l : list Todo.t) : nat := length l.

(** ** Session and reload

    The rest of the component state of the optimistic reconciler (the
    [loading] and [todosLoading] flags) with the handlers that set the
    user and reload the list: [getUser], the [onAuthStateChange] listener
    and [fetchTodos].  [fetchTodos] reads the [user] of the render that
    created it; the listener is registered once, by the effect with the
    empty dependency list, and keeps the [fetchTodos] of that render, so
    the user a call sees is a parameter ([closureUser]). *)

Module Session.

Record State := {
  core : Reconciler.State;
  loading : bool;
  todosLoading : bool
}.

(** [.select('*').eq('user_id', uid).order('created_at', { ascending: false })] *)
Inductive Query :=
  | Select (user_id : string).

Definition onCore (f : Reconciler.State → Reconciler.State) (v : State) : State :=
  {| core := f (core v); loading := loading v; todosLoading := todosLoading v |}.

Definition setUser (u : option string) (v : State) : State :=
  onCore (λ s, {| Reconciler.todos := Reconciler.todos s;
                  Reconciler.inputValue := Reconciler.inputValue s;
                  Reconciler.user := u;
                  Reconciler.localOperations := Reconciler.localOperations s;
                  Reconciler.timers := Reconciler.timers s |}) v.

Definition setTodos (f : list Todo.t → list Todo.t) (v : State) : State :=
  onCore (Reconciler.setTodos f) v.

Definition setLoading (b : bool) (v : State) : State :=
  {| core := core v; loading := b; todosLoading := todosLoading v |}.

Definition setTodosLoading (b : bool) (v : State) : State :=
  {| core := core v; loading := loading v; todosLoading := b |}.

(** Up to the [await]: the guard and the busy flag. *)
Definition fetchTodos_start (closureUser : option string) (v : State) : State * option Query :=
  match closureUser with
  | None => (v, None)
  | Some uid => (setTodosLoading true v, Some (Select uid))
  end.

(** After the [await]: [setTodos(data || [])] unless there is an error,
    and the [finally] block. *)
Definition fetchTodos_settle (r : Response (option (list Todo.t))) (v : State) : State :=
  setTodosLoading false
    match r with
    | Success data => setTodos (λ _, default [] data) v
    | Error | Thrown => v
    end.

Definition fetchTodos (closureUser : option string)
    (r : Response (option (list Todo.t))) (v : State) : State :=
  match fetchTodos_start closureUser v with
  | (v', Some _) => fetchTodos_settle r v'
  | (v', None) => v'
  end.

(** [getUser], after [await supabase.auth.getUser()]. *)
Definition getUser_settle (u : option string) (v : State) : State :=
  setLoading false (setUser u v).

(** The listener: [session?.user ?? null] is [sessionUser]. *)
Definition onAuthStateChange (closureUser sessionUser : option string) (v : State)
    : State * option Query :=
  let v' := setUser sessionUser v in
  match sessionUser with
  | Some _ => fetchTodos_start closureUser v'
  | None => (setTodos (λ _, []) v', None)
  end.

End Session.

(** ** The page before the remote store

    The first file of [src/unnamed/part_000]: the list lives in the
    component only.  Ids are [Date.now()], [createdAt] is a [Date], taken
    as its milliseconds. *)

Module LocalPage.

Record Todo := {
  id : N;
  text : string;
  completed : bool;
  createdAt : N
}.

Record State := {
  todos : list Todo;
  inputValue : string
}.

Definition addTodo (now date : N) (s : State) : State :=
  if JsString.falsy (JsString.trim (inputValue s)) then s
  else
    let newTodo := {| id := now; text := JsString.trim (inputValue s);
                      completed := false; createdAt := date |} in
    {| todos := newTodo :: todos s; inputValue := "" |}.

Definition toggleTodo (i : N) (s : State) : State :=
  {| todos := (λ todo, if decide (id todo = i)
                       then {| id := id todo; text := text todo;
                               completed := negb (completed todo);
                               createdAt := createdAt todo |}
                       else todo) <$> todos s;
     inputValue := inputValue s |}.

Definition deleteTodo (i : N) (s : State) : State :=
  {| todos := filter (λ todo, id todo ≠ i) (todos s); inputValue := inputValue s |}.

Definition completedCount (s : State) : nat :=
  length (filter (λ todo, completed todo = true) (todos s)).

Definition totalCount (s : State) : nat := length (todos s).

End LocalPage.

(** ** The feed as a function on lists *)

(** The id an event is about: [old.id] for a DELETE, [new.id] otherwise. *)
Definition eventId (p : Payload) : string :=
  if decide (eventType p = "DELETE") then Todo.id (old p) else Todo.id (new p).

(** The list after an event, as a function of the list before it. *)
Definition feedTodos (p : Payload) (s : Reconciler.State) (l : list Todo.t) : list Todo.t :=
  if decide (eventType p = "UPDATE") then
    if Reconciler.isLocalOperation (Todo.id (new p)) "UPDATE" s then l
    else replaceById (Todo.id (new p)) (new p) l
  else if decide (eventType p = "DELETE") then
    if Reconciler.isLocalOperation (Todo.id (old p)) "DELETE" s then l
    else removeById (Todo.id (old p)) l
  else l.

Section todo_lists.
Implicit Types (l : list Todo.t) (i j : string) (r t : Todo.t).

Lemma findById_Some i l t :
  findById i l = Some t → Todo.id t = i ∧ t ∈ l.
Proof.
  unfold findById. intros H. apply find_some in H as [Hin Hb].
  apply bool_decide_eq_true in Hb. split; [done|]. by apply list_elem_of_In.
Qed.

Lemma findById_None i l : findById i l = None ↔ i ∉ ids l.
Proof.
  unfold findById, ids. induction l as [|x l IH]; simpl.
  - split; [intros _; apply not_elem_of_nil | done].
  - case_bool_decide as Hx.
    + split; [done|]. intros Hn. exfalso. apply Hn. rewrite Hx. apply elem_of_cons. by left.
    + rewrite IH, not_elem_of_cons. split; [intros ?; split; [congruence|done]|by intros [_ ?]].
Qed.

Lemma findById_is_Some i l : is_Some (findById i l) ↔ i ∈ ids l.
Proof.
  destruct (findById i l) eqn:E.
  - split; [|by eauto]. intros _. destruct (decide (i ∈ ids l)) as [|Hn]; [done|].
    apply findById_None in Hn. congruence.
  - split; [by intros [? ?]|]. intros Hin. apply findById_None in E. done.
Qed.

Lemma removeById_absent i l : i ∉ ids l → removeById i l = l.
Proof.
  unfold removeById, ids. induction l as [|x l IH]; [done|].
  rewrite fmap_cons, not_elem_of_cons. intros [Hx Hl].
  rewrite filter_cons_True by done. by rewrite IH.
Qed.

Lemma removeById_gone i l : i ∉ ids (removeById i l).
Proof.
  unfold removeById, ids. intros Hin.
  apply list_elem_of_fmap in Hin as (x & -> & Hx).
  apply list_elem_of_filter in Hx as [Hne _]. done.
Qed.

Lemma removeById_idemp i l : removeById i (removeById i l) = removeById i l.
Proof. apply removeById_absent, removeById_gone. Qed.

Lemma replaceById_absent i r l : i ∉ ids l → replaceById i r l = l.
Proof.
  unfold replaceById, ids. induction l as [|x l IH]; [done|].
  rewrite !fmap_cons, not_elem_of_cons. intros [Hx Hl].
  rewrite decide_False by done. by rewrite IH.
Qed.

Lemma replaceById_length i r l : length (replaceById i r l) = length l.
Proof. unfold replaceById. apply length_fmap. Qed.

Lemma replaceById_lookup i r l n t :
  l !! n = Some t →
  replaceById i r l !! n = Some (if decide (Todo.id t = i) then r else t).
Proof. unfold replaceById. intros H. by rewrite list_lookup_fmap, H. Qed.

Lemma replaceById_idemp r l :
  replaceById (Todo.id r) r (replaceById (Todo.id r) r l)
  = replaceById (Todo.id r) r l.
Proof.
  unfold replaceById. rewrite <- list_fmap_compose. apply list_fmap_ext.
  intros n x _. simpl. destruct (decide (Todo.id x = Todo.id r)).
  - by rewrite decide_True.
  - by rewrite decide_False.
Qed.

Lemma replaceById_ids_same r l :
  ids (replaceById (Todo.id r) r l) = ids l.
Proof.
  unfold replaceById, ids. rewrite <- list_fmap_compose. apply list_fmap_ext.
  intros n x _. simpl. by destruct (decide (Todo.id x = Todo.id r)).
Qed.

Lemma countId_absent i l : i ∉ ids l → countId i l = 0.
Proof.
  unfold countId, ids. induction l as [|x l IH]; [done|].
  rewrite fmap_cons, not_elem_of_cons. intros [Hx Hl].
  rewrite filter_cons_False by congruence. by apply IH.
Qed.

Lemma countId_cons i t l :
  countId i (t :: l) = (if decide (Todo.id t = i) then 1 else 0) + countId i l.
Proof.
  unfold countId. destruct (decide (Todo.id t = i)).
  - by rewrite filter_cons_True.
  - by rewrite filter_cons_False.
Qed.

End todo_lists.

(** ** Trimming *)

Example trim_keeps_inner_space : JsString.trim "  buy milk " = "buy milk".
Proof. reflexivity. Qed.

Example trim_blank :
  JsString.trim (String (ascii_of_nat 9) (String (ascii_of_nat 32) "")) = "".
Proof. reflexivity. Qed.

Lemma falsy_true s : JsString.falsy s = true ↔ s = "".
Proof. unfold JsString.falsy. apply bool_decide_eq_true. Qed.

Lemma falsy_false s : JsString.falsy s = false ↔ s ≠ "".
Proof. unfold JsString.falsy. apply bool_decide_eq_false. Qed.

Lemma trimStart_head s :
  JsString.trimStart s = ""
  ∨ ∃ c r, JsString.trimStart s = String c r ∧ JsString.isWhiteSpace c = false.
Proof.
  induction s as [|c r IH]; simpl; [by left|].
  destruct (JsString.isWhiteSpace c) eqn:E; [done|]. right. by exists c, r.
Qed.

Lemma trimEnd_head c r :
  JsString.isWhiteSpace c = false →
  JsString.trimEnd (String c r) = String c (JsString.trimEnd r).
Proof. intros E. simpl. rewrite E. by destruct (JsString.trimEnd r). Qed.

Lemma trimEnd_idemp s : JsString.trimEnd (JsString.trimEnd s) = JsString.trimEnd s.
Proof.
  induction s as [|c r IH]; [done|]. simpl.
  destruct (JsString.trimEnd r) as [|c' r'] eqn:E.
  - destruct (JsString.isWhiteSpace c) eqn:Ec; [done|]. simpl. by rewrite Ec.
  - change (JsString.trimEnd (String c (String c' r')))
      with (match JsString.trimEnd (String c' r') with
            | EmptyString =>
                if JsString.isWhiteSpace c then EmptyString else String c EmptyString
            | r'' => String c r''
            end).
    by rewrite IH.
Qed.

(** Trimming twice is trimming once: a trimmed text put back into the
    input box is submitted unchanged. *)
Lemma trim_idemp s : JsString.trim (JsString.trim s) = JsString.trim s.
Proof.
  unfold JsString.trim.
  destruct (trimStart_head s) as [-> | (c & r & -> & Ec)]; [done|].
  rewrite (trimEnd_head c r Ec). simpl JsString.trimStart. rewrite Ec.
  rewrite <- (trimEnd_head c r Ec). apply trimEnd_idemp.
Qed.

(** ** The change feed *)

Section feed.
Import Reconciler.
Implicit Types (s : State) (p : Payload).

(** The feed handler only ever touches the list. *)
Lemma handleRealtimeChange_frame p s :
  inputValue (handleRealtimeChange p s) = inputValue s ∧
  user (handleRealtimeChange p s) = user s ∧
  localOperations (handleRealtimeChange p s) = localOperations s ∧
  timers (handleRealtimeChange p s) = timers s.
Proof.
  unfold handleRealtimeChange.
  repeat (case_bool_decide; [by destruct (isLocalOperation _ _ s)|]); done.
Qed.

Lemma isLocalOperation_handleRealtimeChange i o p s :
  isLocalOperation i o (handleRealtimeChange p s) = isLocalOperation i o s.
Proof.
  unfold isLocalOperation.
  by destruct (handleRealtimeChange_frame p s) as (_ & _ & -> & _).
Qed.

Lemma State_eq s1 s2 :
  todos s1 = todos s2 → inputValue s1 = inputValue s2 → user s1 = user s2 →
  localOperations s1 = localOperations s2 → timers s1 = timers s2 → s1 = s2.
Proof. destruct s1, s2; simpl; intros; by subst. Qed.

(** What an UPDATE that is not an echo does to the list. *)
Lemma handleRealtimeChange_UPDATE_todos p s :
  eventType p = "UPDATE" →
  isLocalOperation (Todo.id (new p)) "UPDATE" s = false →
  todos (handleRealtimeChange p s)
  = replaceById (Todo.id (new p)) (new p) (todos s).
Proof.
  intros He Hl. unfold handleRealtimeChange. rewrite He, Hl. simpl.
  destruct (findById _ _) eqn:E; [done|].
  apply findById_None in E. by rewrite replaceById_absent.
Qed.

(** What a DELETE that is not an echo does to the list. *)
Lemma handleRealtimeChange_DELETE_todos p s :
  eventType p = "DELETE" →
  isLocalOperation (Todo.id (old p)) "DELETE" s = false →
  todos (handleRealtimeChange p s) = removeById (Todo.id (old p)) (todos s).
Proof.
  intros He Hl. unfold handleRealtimeChange. rewrite He, Hl. simpl.
  destruct (findById _ _) eqn:E; [done|].
  apply findById_None in E. by rewrite removeById_absent.
Qed.

(** An event that is an echo of a local operation is dropped whole. *)
Lemma handleRealtimeChange_echo p s :
  (eventType p = "INSERT" ∧ isLocalOperation (Todo.id (new p)) "INSERT" s = true) ∨
  (eventType p = "UPDATE" ∧ isLocalOperation (Todo.id (new p)) "UPDATE" s = true) ∨
  (eventType p = "DELETE" ∧ isLocalOperation (Todo.id (old p)) "DELETE" s = true) →
  handleRealtimeChange p s = s.
Proof.
  unfold handleRealtimeChange.
  intros [[-> ->]|[[-> ->]|[-> ->]]]; done.
Qed.

(** An INSERT never adds an id the list already has. *)
Lemma handleRealtimeChange_INSERT_present p s :
  eventType p = "INSERT" → Todo.id (new p) ∈ ids (todos s) →
  handleRealtimeChange p s = s.
Proof.
  intros He Hin. unfold handleRealtimeChange. rewrite He. simpl.
  destruct (isLocalOperation _ _ s); [done|].
  apply findById_is_Some in Hin as [t Ht]. unfold setTodos. rewrite Ht.
  by destruct s.
Qed.

End feed.

(** ** Claims on the change feed *)

(** C8: an UPDATE event that is not the echo of a local operation
    replaces, at its own position, every entry that carries the event's id
    by the incoming record and leaves the other entries as they are: the
    list keeps its length and position [n] holds the incoming record if
    the entry there had the event's id, the old entry otherwise.  With no
    entry of that id the list is unchanged.  Nothing but the list changes. *)
Theorem handleRealtimeChange_UPDATE_in_place (p : Payload) (s : Reconciler.State) :
  eventType p = "UPDATE" →
  Reconciler.isLocalOperation (Todo.id (new p)) "UPDATE" s = false →
  let s' := Reconciler.handleRealtimeChange p s in
  length (Reconciler.todos s') = length (Reconciler.todos s) ∧
  (∀ n t, Reconciler.todos s !! n = Some t →
          Reconciler.todos s' !! n
          = Some (if decide (Todo.id t = Todo.id (new p)) then new p else t)) ∧
  (Todo.id (new p) ∈ ids (Reconciler.todos s) → new p ∈ Reconciler.todos s') ∧
  (Todo.id (new p) ∉ ids (Reconciler.todos s) → s' = s) ∧
  Reconciler.inputValue s' = Reconciler.inputValue s ∧
  Reconciler.localOperations s' = Reconciler.localOperations s.
Proof.
  intros He Hl s'.
  pose proof (handleRealtimeChange_UPDATE_todos p s He Hl) as Ht. fold s' in Ht.
  destruct (handleRealtimeChange_frame p s) as (Hi & Hu & Ho & Htm). fold s' in Hi, Hu, Ho, Htm.
  repeat split; try done.
  - rewrite Ht. apply replaceById_length.
  - intros n t Hn. rewrite Ht. by apply replaceById_lookup.
  - intros Hin. rewrite Ht. unfold ids in Hin.
    apply list_elem_of_fmap in Hin as (t & Hid & Hin).
    apply list_elem_of_lookup in Hin as [n Hn].
    apply list_elem_of_lookup. exists n.
    rewrite (replaceById_lookup _ _ _ _ _ Hn). by rewrite decide_True.
  - intros Hnin. apply State_eq; try done.
    rewrite Ht. by apply replaceById_absent.
Qed.

Lemma handleRealtimeChange_UPDATE_in_place_witness :
  let t1 := Todo.mk "1" "u" "a" false "2024" "2024" in
  let t2 := Todo.mk "2" "u" "b" false "2023" "2023" in
  let n2 := Todo.mk "2" "u" "b" true "2023" "2025" in
  let s := Reconciler.Build_State [t1; t2] "" (Some "u") ∅ [] in
  Reconciler.todos (Reconciler.handleRealtimeChange (Build_Payload "UPDATE" n2 n2) s) !! 1
  = Some n2.
Proof.
  intros t1 t2 n2 s.
  pose proof (handleRealtimeChange_UPDATE_in_place (Build_Payload "UPDATE" n2 n2) s
                eq_refl eq_refl) as (_ & H & _).
  exact (H 1 t2 eq_refl).
Defined.

(** Delivering any event twice in a row is the same as delivering it once. *)
Lemma handleRealtimeChange_idemp (p : Payload) (s : Reconciler.State) :
  Reconciler.handleRealtimeChange p (Reconciler.handleRealtimeChange p s)
  = Reconciler.handleRealtimeChange p s.
Proof.
  destruct (handleRealtimeChange_frame p s) as (Hi & Hu & Ho & Htm).
  destruct (handleRealtimeChange_frame p (Reconciler.handleRealtimeChange p s))
    as (Hi' & Hu' & Ho' & Htm').
  destruct (decide (eventType p = "INSERT")) as [E1|E1];
    [|destruct (decide (eventType p = "UPDATE")) as [E2|E2];
      [|destruct (decide (eventType p = "DELETE")) as [E3|E3]]].
  - destruct (Reconciler.isLocalOperation (Todo.id (new p)) "INSERT" s) eqn:El.
    + by rewrite !(handleRealtimeChange_echo p s) by auto.
    + apply handleRealtimeChange_INSERT_present; [done|].
      unfold Reconciler.handleRealtimeChange. rewrite E1, El. simpl.
      destruct (findById _ (Reconciler.todos s)) eqn:Ef.
      * apply findById_is_Some. by rewrite Ef.
      * unfold ids. rewrite fmap_cons. apply elem_of_cons. by left.
  - destruct (Reconciler.isLocalOperation (Todo.id (new p)) "UPDATE" s) eqn:El.
    + by rewrite !(handleRealtimeChange_echo p s) by auto.
    + apply State_eq; try congruence.
      rewrite handleRealtimeChange_UPDATE_todos;
        [|done|by rewrite isLocalOperation_handleRealtimeChange].
      rewrite (handleRealtimeChange_UPDATE_todos p s E2 El).
      apply replaceById_idemp.
  - destruct (Reconciler.isLocalOperation (Todo.id (old p)) "DELETE" s) eqn:El.
    + by rewrite !(handleRealtimeChange_echo p s) by auto.
    + apply State_eq; try congruence.
      rewrite handleRealtimeChange_DELETE_todos;
        [|done|by rewrite isLocalOperation_handleRealtimeChange].
      rewrite (handleRealtimeChange_DELETE_todos p s E3 El).
      apply removeById_idemp.
  - unfold Reconciler.handleRealtimeChange.
    by rewrite !bool_decide_eq_false_2.
Qed.

(** C4: for an UPDATE or DELETE event that is not suppressed as the echo
    of a local operation, applying the event twice in succession gives the
    same list (and the same state) as applying it once. *)
Theorem handleRealtimeChange_UPDATE_DELETE_idempotent (p : Payload) (s : Reconciler.State) :
  (eventType p = "UPDATE" ∧
   Reconciler.isLocalOperation (Todo.id (new p)) "UPDATE" s = false) ∨
  (eventType p = "DELETE" ∧
   Reconciler.isLocalOperation (Todo.id (old p)) "DELETE" s = false) →
  Reconciler.todos
    (Reconciler.handleRealtimeChange p (Reconciler.handleRealtimeChange p s))
  = Reconciler.todos (Reconciler.handleRealtimeChange p s) ∧
  Reconciler.handleRealtimeChange p (Reconciler.handleRealtimeChange p s)
  = Reconciler.handleRealtimeChange p s.
Proof. intros _. by rewrite handleRealtimeChange_idemp. Qed.

Lemma handleRealtimeChange_UPDATE_DELETE_idempotent_witness :
  let t1 := Todo.mk "1" "u" "a" false "2024" "2024" in
  let t2 := Todo.mk "2" "u" "b" false "2023" "2023" in
  let s := Reconciler.Build_State [t1; t2] "" (Some "u") ∅ [] in
  let p := Build_Payload "DELETE" t2 t2 in
  Reconciler.todos (Reconciler.handleRealtimeChange p s) = [t1] ∧
  Reconciler.todos
    (Reconciler.handleRealtimeChange p (Reconciler.handleRealtimeChange p s)) = [t1].
Proof.
  intros t1 t2 s p.
  destruct (handleRealtimeChange_UPDATE_DELETE_idempotent p s
              (or_intror (conj eq_refl eq_refl))) as [H _].
  split; [reflexivity|]. rewrite H. reflexivity.
Defined.

(** ** Claims on [addTodo] *)

(** C7: an input whose trimmed form is empty (empty, or white space only)
    is rejected silently, in the optimistic reconciler and in
    [src/app/page.tsx] alike: no request is issued and the whole state,
    the list and the input box included, stays as it was, whatever the
    store would have answered. *)
Theorem addTodo_blank_rejected (input : string)
    (s : Reconciler.State) (q : Page.State)
    (c : Clock) (r : Response Todo.t) (r' : Response unit) :
  JsString.trim input = "" →
  Reconciler.inputValue s = input →
  Page.inputValue q = input →
  Reconciler.addTodo_start c s = (s, None) ∧
  Reconciler.addTodo c r s = s ∧
  Page.addTodo_start q = (q, None) ∧
  Page.addTodo r' q = q.
Proof.
  intros Ht Hs Hq.
  assert (Reconciler.addTodo_start c s = (s, None)) as H1.
  { unfold Reconciler.addTodo_start. destruct (Reconciler.user s); [|done].
    rewrite Hs, Ht. done. }
  assert (Page.addTodo_start q = (q, None)) as H2.
  { unfold Page.addTodo_start. destruct (Page.user q); [|done].
    rewrite Hq, Ht. done. }
  unfold Reconciler.addTodo, Page.addTodo. by rewrite H1, H2.
Qed.

Lemma addTodo_blank_rejected_witness :
  let blank := String (ascii_of_nat 32) (String (ascii_of_nat 9) "") in
  let t1 := Todo.mk "1" "u" "a" false "2024" "2024" in
  let s := Reconciler.Build_State [t1] blank (Some "u") ∅ [] in
  let q := Page.Build_State [t1] blank (Some "u") in
  Reconciler.addTodo_start (Build_Clock 7 "2025" "2025") s = (s, None) ∧
  Page.addTodo_start q = (q, None).
Proof.
  intros blank t1 s q.
  destruct (addTodo_blank_rejected blank s q (Build_Clock 7 "2025" "2025")
              Error Error eq_refl eq_refl eq_refl) as (H1 & _ & H2 & _).
  exact (conj H1 H2).
Defined.

Section add.
Import Reconciler.
Implicit Types (s : State) (c : Clock).

(** With a signed-in user and a text that is not blank, [addTodo] inserts
    the placeholder, clears the input box and issues the insert. *)
Lemma addTodo_start_accepted c s uid :
  user s = Some uid → JsString.trim (inputValue s) ≠ "" →
  addTodo_start c s
  = (setInputValue "" (setTodos (cons (tempTodo c uid (inputValue s))) s),
     Some (Insert uid (JsString.trim (inputValue s)) false,
           tempTodo c uid (inputValue s))).
Proof.
  intros Hu Ht. unfold addTodo_start. rewrite Hu.
  apply falsy_false in Ht. by rewrite Ht.
Qed.

(** A request is issued exactly when a user is signed in and the text is
    not blank. *)
Lemma addTodo_start_request c s :
  is_Some (snd (addTodo_start c s)) ↔
  is_Some (user s) ∧ JsString.trim (inputValue s) ≠ "".
Proof.
  unfold addTodo_start. destruct (user s) as [uid|]; simpl.
  - destruct (JsString.falsy _) eqn:E; simpl.
    + apply falsy_true in E. split; [by intros [? ?]|]. by intros [_ ?].
    + apply falsy_false in E. split; [by eauto|]. by eauto.
  - split; [by intros [? ?]|]. by intros [[? ?] _].
Qed.

Lemma Page_addTodo_start_request (q : Page.State) :
is_Some (snd (Page.addTodo_start q)) ↔
is_Some (Page.user q) ∧ JsString.trim (Page.inputValue q) ≠ "".
Proof.
unfold Page.addTodo_start. destruct (Page.user q) as [uid|]; simpl.
- destruct (JsString.falsy _) eqn:E; simpl.
  + apply falsy_true in E. split; [by intros [? ?]|]. by intros [_ ?].
  + apply falsy_false in E. split; [by eauto|]. by eauto.
- split; [by intros [? ?]|]. by intros [[? ?] _].
Qed.

Lemma removeById_placeholder (t : Todo.t) (l : list Todo.t) :
  Todo.id t ∉ ids l → removeById (Todo.id t) (t :: l) = l.
Proof.
  intros H. unfold removeById. rewrite filter_cons_False by (intros ?; done).
  by apply removeById_absent.
Qed.

Lemma replaceById_placeholder (t data : Todo.t) (l : list Todo.t) :
  Todo.id t ∉ ids l → replaceById (Todo.id t) data (t :: l) = data :: l.
Proof.
  intros H. unfold replaceById. rewrite fmap_cons, decide_True by done.
  f_equal. by apply replaceById_absent.
Qed.

Lemma addTodo_failure c s uid (r : Response Todo.t) :
  user s = Some uid → JsString.trim (inputValue s) ≠ "" →
  r = Error ∨ r = Thrown →
  addTodo c r s
  = setInputValue (JsString.trim (inputValue s))
      (setTodos (removeById ("temp_" +:+ pretty (date_now c)))
         (setInputValue "" (setTodos (cons (tempTodo c uid (inputValue s))) s))).
Proof.
  intros Hu Ht Hr. unfold addTodo. rewrite (addTodo_start_accepted c s uid Hu Ht).
  by destruct Hr as [-> | ->].
Qed.

Lemma addTodo_success c s uid (data : Todo.t) :
  user s = Some uid → JsString.trim (inputValue s) ≠ "" →
  addTodo c (Success data) s
  = addLocalOperation (Todo.id data) "INSERT"
      (setTodos (replaceById ("temp_" +:+ pretty (date_now c)) data)
         (setInputValue "" (setTodos (cons (tempTodo c uid (inputValue s))) s))).
Proof.
  intros Hu Ht. unfold addTodo. by rewrite (addTodo_start_accepted c s uid Hu Ht).
Qed.

Lemma addTodo_success_todos c s uid (data : Todo.t) :
  user s = Some uid → JsString.trim (inputValue s) ≠ "" →
  "temp_" +:+ pretty (date_now c) ∉ ids (todos s) →
  todos (addTodo c (Success data) s) = data :: todos s.
Proof.
  intros Hu Ht Hf. rewrite (addTodo_success c s uid data Hu Ht). simpl.
  by apply (replaceById_placeholder (tempTodo c uid (inputValue s))).
Qed.

Lemma elapse_todos d s : todos (elapse d s) = todos s.
Proof. done. Qed.

End add.

(** C2, as the code has it: when the insert that an add issued fails (an
    error result or a rejected promise), the list is again what it was
    before the add, the placeholder id being locally unique (no entry of
    the list carries it), and the input box holds the trimmed text: the
    original text whenever that has no white space at its ends, and in any
    case a text that trims to what was submitted.  User, [localOperations]
    and timers are untouched. *)
Theorem addTodo_failure_rollback (s : Reconciler.State) (c : Clock)
    (r : Response Todo.t) :
  is_Some (snd (Reconciler.addTodo_start c s)) →
  "temp_" +:+ pretty (date_now c) ∉ ids (Reconciler.todos s) →
  r = Error ∨ r = Thrown →
  let s' := Reconciler.addTodo c r s in
  Reconciler.todos s' = Reconciler.todos s ∧
  Reconciler.inputValue s' = JsString.trim (Reconciler.inputValue s) ∧
  JsString.trim (Reconciler.inputValue s') = JsString.trim (Reconciler.inputValue s) ∧
  (JsString.trim (Reconciler.inputValue s) = Reconciler.inputValue s → s' = s) ∧
  Reconciler.user s' = Reconciler.user s ∧
  Reconciler.localOperations s' = Reconciler.localOperations s ∧
  Reconciler.timers s' = Reconciler.timers s.
Proof.
  intros Hreq Hf Hr s'. subst s'.
  apply addTodo_start_request in Hreq as [[uid Hu] Ht].
  rewrite (addTodo_failure c s uid r Hu Ht Hr).
  assert (removeById ("temp_" +:+ pretty (date_now c))
            (Reconciler.tempTodo c uid (Reconciler.inputValue s) :: Reconciler.todos s)
          = Reconciler.todos s) as Hrm.
  { by apply (removeById_placeholder (Reconciler.tempTodo c uid (Reconciler.inputValue s))). }
  simpl. repeat split; try done.
  - apply trim_idemp.
  - intros Heq. apply State_eq; simpl; try done.
Qed.

Lemma addTodo_failure_rollback_witness :
  let t1 := Todo.mk "1" "u" "a" false "2024" "2024" in
  let s := Reconciler.Build_State [t1] "buy milk" (Some "u") ∅ [] in
  Reconciler.addTodo (Build_Clock 7 "2025" "2025") Error s = s.
Proof.
  intros t1 s.
  destruct (addTodo_failure_rollback s (Build_Clock 7 "2025" "2025") Error)
    as (_ & _ & _ & H & _).
  - vm_compute. eauto.
  - vm_compute. intros H. apply list_elem_of_In in H. simpl in H.
    destruct H as [H|[]]. discriminate.
  - by left.
  - apply H. reflexivity.
Defined.

(** C2 as stated fails: a text with white space at an end comes back
    trimmed, not as it was typed. *)
Lemma addTodo_failure_input_counterexample :
  ¬ (∀ (s : Reconciler.State) (c : Clock) (r : Response Todo.t),
       Reconciler.inputValue s ≠ "" →
       is_Some (snd (Reconciler.addTodo_start c s)) →
       r = Error ∨ r = Thrown →
       Reconciler.todos (Reconciler.addTodo c r s) = Reconciler.todos s ∧
       Reconciler.inputValue (Reconciler.addTodo c r s) = Reconciler.inputValue s).
Proof.
  intros H.
  destruct (H (Reconciler.Build_State [] " milk" (Some "u") ∅ [])
              (Build_Clock 7 "2025" "2025") Error) as [_ Hin].
  - discriminate.
  - vm_compute. eauto.
  - by left.
  - vm_compute in Hin. discriminate.
Qed.

(** C1: after a successful add whose confirmed record has id [I], a feed
    INSERT event for [I] leaves the list with exactly one entry of id [I].
    The add issued its request (a user is signed in, the text is not
    blank); the id is newly assigned by the store and the placeholder id
    is locally unique: no entry of the list carries either before the add.

    In the optimistic reconciler the event changes nothing, after any
    delay [d] (inside the suppression window the echo is skipped through
    [localOperations], otherwise the existing-id check drops it).  In
    [src/app/page.tsx] the add did not touch the list and the event
    brings in the one entry. *)
Theorem add_then_INSERT_echo_single (s : Reconciler.State) (q : Page.State)
    (c : Clock) (data : Todo.t) (d : N) (p : Payload) :
  is_Some (snd (Reconciler.addTodo_start c s)) →
  Todo.id data ∉ ids (Reconciler.todos s) →
  "temp_" +:+ pretty (date_now c) ∉ ids (Reconciler.todos s) →
  is_Some (snd (Page.addTodo_start q)) →
  Todo.id data ∉ ids (Page.todos q) →
  eventType p = "INSERT" →
  Todo.id (new p) = Todo.id data →
  let s' := Reconciler.elapse d (Reconciler.addTodo c (Success data) s) in
  Reconciler.handleRealtimeChange p s' = s' ∧
  Reconciler.todos (Reconciler.handleRealtimeChange p s') = data :: Reconciler.todos s ∧
  countId (Todo.id data) (Reconciler.todos (Reconciler.handleRealtimeChange p s')) = 1 ∧
  countId (Todo.id data)
    (Page.todos (Page.handleRealtimeChange p (Page.addTodo (Success ()) q))) = 1.
Proof.
  intros Hreq Hid Htmp Hqreq Hqid He Hnew s'.
  apply addTodo_start_request in Hreq as [[uid Hu] Ht].
  apply Page_addTodo_start_request in Hqreq as [[quid Hqu] Hqt].
  assert (Reconciler.todos s' = data :: Reconciler.todos s) as Htodos.
  { subst s'. rewrite elapse_todos. by apply (addTodo_success_todos c s uid). }
  assert (Reconciler.handleRealtimeChange p s' = s') as Hsame.
  { apply handleRealtimeChange_INSERT_present; [done|].
    rewrite Htodos, Hnew. unfold ids. rewrite fmap_cons. apply elem_of_cons. by left. }
  rewrite Hsame, Htodos. repeat split; try done.
  - rewrite countId_cons, decide_True by done. by rewrite countId_absent.
  - unfold Page.addTodo, Page.addTodo_start. rewrite Hqu.
    apply falsy_false in Hqt. rewrite Hqt. simpl.
    unfold Page.handleRealtimeChange. rewrite He. simpl.
    rewrite countId_cons, decide_True by done. by rewrite countId_absent.
Qed.

Lemma add_then_INSERT_echo_single_witness :
  let data := Todo.mk "1" "u" "a" false "2025" "2025" in
  let s := Reconciler.Build_State [] "a" (Some "u") ∅ [] in
  let q := Page.Build_State [] "a" (Some "u") in
  let c := Build_Clock 7 "2025" "2025" in
  let p := Build_Payload "INSERT" data data in
  Reconciler.todos
    (Reconciler.handleRealtimeChange p
       (Reconciler.elapse 4999 (Reconciler.addTodo c (Success data) s))) = [data] ∧
  Page.todos (Page.handleRealtimeChange p (Page.addTodo (Success ()) q)) = [data].
Proof.
  intros data s q c p.
  destruct (add_then_INSERT_echo_single s q c data 4999 p) as (_ & H & _).
  - vm_compute. eauto.
  - apply not_elem_of_nil.
  - apply not_elem_of_nil.
  - vm_compute. eauto.
  - apply not_elem_of_nil.
  - reflexivity.
  - reflexivity.
  - split; [exact H | reflexivity].
Defined.

(** *** The suppression window *)

Section window.
Import Reconciler.

(** For 5000 ms after [addLocalOperation] the key is in the set, unless
    a timer of an earlier registration of the same key runs out first. *)
Lemma addLocalOperation_window (i o : string) (d : N) (s : State) :
  (d < 5000)%N →
  Forall (λ tk, snd tk = operationKey i o → (d < fst tk)%N) (timers s) →
  isLocalOperation i o (elapse d (addLocalOperation i o s)) = true.
Proof.
  intros Hd Hold. unfold isLocalOperation. apply bool_decide_eq_true. simpl.
  apply elem_of_difference. split; [set_solver|].
  rewrite elem_of_list_to_set. intros Hin.
  apply list_elem_of_fmap in Hin as ([r k] & Hk & Hin). simpl in Hk. subst k.
  apply list_elem_of_filter in Hin as [Hdue Hin]. simpl in Hdue.
  apply elem_of_app in Hin as [Hin|Hin].
  - rewrite Forall_forall in Hold. specialize (Hold _ Hin eq_refl). simpl in Hold. lia.
  - apply list_elem_of_singleton in Hin. inversion Hin; subst. lia.
Qed.

(** Once the 5000 ms are over the key is gone. *)
Lemma addLocalOperation_expired (i o : string) (d : N) (s : State) :
  (5000 ≤ d)%N →
  isLocalOperation i o (elapse d (addLocalOperation i o s)) = false.
Proof.
  intros Hd. unfold isLocalOperation. apply bool_decide_eq_false. simpl.
  intros Hin. apply elem_of_difference in Hin as [_ Hn]. apply Hn.
  rewrite elem_of_list_to_set. apply list_elem_of_fmap.
  exists (5000%N, operationKey i o). split; [done|].
  apply list_elem_of_filter. split; [done|]. apply elem_of_app. right.
  apply list_elem_of_singleton. done.
Qed.

End window.

(** The echo overtaking the store's answer is another matter: delivered
    between the optimistic insert and the answer, the INSERT event is
    neither a known local operation nor an id the list has, and the
    answer then turns the placeholder into a second entry of that id. *)
Example INSERT_echo_before_answer :
  let data := Todo.mk "1" "u" "a" false "2025" "2025" in
  let s := Reconciler.Build_State [] "a" (Some "u") ∅ [] in
  let c := Build_Clock 7 "2025" "2025" in
  let p := Build_Payload "INSERT" data data in
  ∃ s1 req temp,
    Reconciler.addTodo_start c s = (s1, Some (req, temp)) ∧
    Reconciler.todos
      (Reconciler.addTodo_settle temp (Success data)
         (Reconciler.handleRealtimeChange p s1)) = [data; data].
Proof. intros data s c p. do 3 eexists. split; reflexivity. Qed.

(** ** Claims on [toggleTodo] and [deleteTodo] *)

Section toggle_delete.
Import Reconciler.
Implicit Types (s : State) (l : list Todo.t) (i : string) (t : Todo.t).

Lemma with_completed_same t : Todo.with_completed (Todo.completed t) t = t.
Proof. by destruct t. Qed.

Lemma with_completed_twice b b' t :
  Todo.with_completed b (Todo.with_completed b' t) = Todo.with_completed b t.
Proof. done. Qed.

Lemma findById_completeById i f l :
  findById i (completeById i f l)
  = (λ t, Todo.with_completed (f t) t) <$> findById i l.
Proof.
  unfold findById, completeById. induction l as [|x l IH]; [done|].
  rewrite fmap_cons. simpl. destruct (decide (Todo.id x = i)) as [E|E].
  - simpl. by rewrite !bool_decide_eq_true_2.
  - by rewrite !bool_decide_eq_false_2.
Qed.

Lemma completeById_lookup i f l n t :
  l !! n = Some t →
  completeById i f l !! n
  = Some (if decide (Todo.id t = i) then Todo.with_completed (f t) t else t).
Proof. unfold completeById. intros H. by rewrite list_lookup_fmap, H. Qed.

Lemma completeById_ids i f l : ids (completeById i f l) = ids l.
Proof.
  unfold completeById, ids. rewrite <- list_fmap_compose. apply list_fmap_ext.
  intros n x _. simpl. by destruct (decide (Todo.id x = i)).
Qed.

(** Setting the entries of an id back to the value of the first of them
    undoes a flip when that id occurs once. *)
Lemma completeById_revert i l t :
  NoDup (ids l) → findById i l = Some t →
  completeById i (λ _, Todo.completed t)
    (completeById i (λ x, negb (Todo.completed x)) l) = l.
Proof.
  unfold completeById, findById, ids. induction l as [|x l IH]; [done|].
  rewrite !fmap_cons. intros Hnd Hf. apply NoDup_cons in Hnd as [Hx Hnd].
  simpl in Hf. destruct (decide (Todo.id x = i)) as [E|E].
  - rewrite bool_decide_eq_true_2 in Hf by done. injection Hf as ->.
    simpl. rewrite decide_True by done. rewrite with_completed_twice, with_completed_same.
    f_equal. rewrite <- list_fmap_compose. rewrite <- (list_fmap_id l) at 2.
    apply list_fmap_ext. intros n y Hy. simpl.
    destruct (decide (Todo.id y = i)) as [Ey|Ey]; [|by rewrite decide_False].
    exfalso. apply Hx. rewrite E, <- Ey. apply list_elem_of_fmap_2.
    apply list_elem_of_lookup. eauto.
  - rewrite bool_decide_eq_false_2 in Hf by done.
    rewrite decide_False by done. f_equal. by apply IH.
Qed.

Lemma toggleTodo_start_accepted i s uid t :
  user s = Some uid → findById i (todos s) = Some t →
  toggleTodo_start i s
  = (setTodos (completeById i (λ x, negb (Todo.completed x))) s,
     Some (Update i uid (negb (Todo.completed t)), t)).
Proof. intros Hu Hf. unfold toggleTodo_start. by rewrite Hu, Hf. Qed.

Lemma toggleTodo_start_request i s :
is_Some (snd (toggleTodo_start i s)) ↔
is_Some (user s) ∧ is_Some (findById i (todos s)).
Proof.
unfold toggleTodo_start. destruct (user s) as [uid|]; simpl.
- destruct (findById i (todos s)); simpl.
  + split; by eauto.
  + split; [by intros [? ?]|]. by intros [_ [? ?]].
- split; [by intros [? ?]|]. by intros [[? ?] _].
Qed.

Lemma deleteTodo_start_accepted i s uid t :
  user s = Some uid → findById i (todos s) = Some t →
  deleteTodo_start i s = (setTodos (removeById i) s, Some (Delete i uid, t)).
Proof. intros Hu Hf. unfold deleteTodo_start. by rewrite Hu, Hf. Qed.

End toggle_delete.

(** C3: for an id of the list ([t] the entry [find] returns for it) and a
    toggle that issued its request (a user is signed in), the entry is
    flipped at once and the store is asked for [completed = !t.completed];
    after a successful answer the entry is [t] with [completed] negated
    once, after a failure (error result or rejected promise) it is [t]
    again.  Entries of other ids are never touched, and with one entry per
    id a failed toggle gives back the whole list. *)
Theorem toggleTodo_round_trip (s : Reconciler.State) (i : string) (t : Todo.t)
    (r : Response unit) :
  findById i (Reconciler.todos s) = Some t →
  is_Some (snd (Reconciler.toggleTodo_start i s)) →
  (∃ uid, Reconciler.user s = Some uid ∧
          snd (Reconciler.toggleTodo_start i s)
          = Some (Update i uid (negb (Todo.completed t)), t)) ∧
  findById i (Reconciler.todos (fst (Reconciler.toggleTodo_start i s)))
  = Some (Todo.with_completed (negb (Todo.completed t)) t) ∧
  findById i (Reconciler.todos (Reconciler.toggleTodo i (Success ()) s))
  = Some (Todo.with_completed (negb (Todo.completed t)) t) ∧
  (r = Error ∨ r = Thrown →
   findById i (Reconciler.todos (Reconciler.toggleTodo i r s)) = Some t ∧
   (NoDup (ids (Reconciler.todos s)) →
    Reconciler.todos (Reconciler.toggleTodo i r s) = Reconciler.todos s)) ∧
  (∀ n x, Reconciler.todos s !! n = Some x → Todo.id x ≠ i →
          Reconciler.todos (Reconciler.toggleTodo i r s) !! n = Some x).
Proof.
  intros Hf Hreq. apply toggleTodo_start_request in Hreq as [[uid Hu] _].
  unfold Reconciler.toggleTodo.
  rewrite (toggleTodo_start_accepted i s uid t Hu Hf). simpl.
  split; [by exists uid|]. split; [by rewrite findById_completeById, Hf|].
  split; [by rewrite findById_completeById, Hf|]. split.
  - intros [-> | ->]; simpl.
    all: split;
      [ rewrite !findById_completeById, Hf; simpl;
        by rewrite with_completed_twice, with_completed_same
      | intros Hnd; by apply completeById_revert ].
  - intros n x Hn Hx.
    assert (completeById i (λ x0, negb (Todo.completed x0)) (Reconciler.todos s) !! n
            = Some x) as H1.
    { rewrite (completeById_lookup _ _ _ _ _ Hn). by rewrite decide_False. }
    destruct r; simpl; [done| |].
    all: rewrite (completeById_lookup _ _ _ _ _ H1); by rewrite decide_False.
Qed.

Lemma toggleTodo_round_trip_witness :
  let t2 := Todo.mk "2" "u" "b" false "2023" "2023" in
  let s := Reconciler.Build_State [t2] "" (Some "u") ∅ [] in
  Reconciler.todos (fst (Reconciler.toggleTodo_start "2" s))
  = [Todo.mk "2" "u" "b" true "2023" "2023"] ∧
  Reconciler.todos (Reconciler.toggleTodo "2" Error s) = [t2].
Proof.
  intros t2 s.
  destruct (toggleTodo_round_trip s "2" t2 Error eq_refl) as (_ & _ & _ & H & _).
  { vm_compute. eauto. }
  destruct (H (or_introl eq_refl)) as [_ Hall].
  split; [reflexivity|]. apply Hall.
  apply NoDup_cons. split; [apply not_elem_of_nil | apply NoDup_nil_2].
Defined.

(** C6: for an id of the list ([t] the entry [find] returns for it), the
    delete takes every entry of that id out of the list at once, keeps
    [t] and asks the store to delete; if that fails (error result or
    rejected promise), [t] is put at the head of the list.  A successful
    answer leaves the list without the entry.  The user is the one of the
    render the handler belongs to: the delete button, the only caller, is
    rendered under a signed-in user only. *)
Theorem deleteTodo_optimistic (s : Reconciler.State) (i uid : string) (t : Todo.t)
    (r : Response unit) :
  Reconciler.user s = Some uid →
  findById i (Reconciler.todos s) = Some t →
  let s1 := fst (Reconciler.deleteTodo_start i s) in
  snd (Reconciler.deleteTodo_start i s) = Some (Delete i uid, t) ∧
  t ∈ Reconciler.todos s ∧ Todo.id t = i ∧
  (i ∉ ids (Reconciler.todos s1)) ∧
  (∀ x, x ∈ Reconciler.todos s1 ↔ x ∈ Reconciler.todos s ∧ Todo.id x ≠ i) ∧
  Reconciler.todos s1 `sublist_of` Reconciler.todos s ∧
  Reconciler.todos (Reconciler.deleteTodo i (Success ()) s) = Reconciler.todos s1 ∧
  (r = Error ∨ r = Thrown →
   Reconciler.todos (Reconciler.deleteTodo i r s) = t :: Reconciler.todos s1).
Proof.
  intros Hu Hf. unfold Reconciler.deleteTodo.
  rewrite (deleteTodo_start_accepted i s uid t Hu Hf). simpl.
  destruct (findById_Some _ _ _ Hf) as [Hid Hin].
  repeat split; try done.
  - apply removeById_gone.
  - unfold removeById in H. by apply list_elem_of_filter in H as [_ ?].
  - unfold removeById in H. by apply list_elem_of_filter in H as [? _].
  - intros [? ?]. unfold removeById. by apply list_elem_of_filter.
  - unfold removeById. apply sublist_filter.
  - by intros [-> | ->].
Qed.

Lemma deleteTodo_optimistic_witness :
  let t1 := Todo.mk "1" "u" "a" false "2024" "2024" in
  let t2 := Todo.mk "2" "u" "b" false "2023" "2023" in
  let s := Reconciler.Build_State [t1; t2] "" (Some "u") ∅ [] in
  Reconciler.todos (fst (Reconciler.deleteTodo_start "2" s)) = [t1] ∧
  Reconciler.todos (Reconciler.deleteTodo "2" Thrown s) = [t2; t1].
Proof.
  intros t1 t2 s.
  destruct (deleteTodo_optimistic s "2" "u" t2 Thrown eq_refl eq_refl)
    as (_ & _ & _ & _ & _ & _ & _ & H).
  split; [reflexivity|]. rewrite (H (or_intror eq_refl)). reflexivity.
Defined.

(** The guard [if (!user) return]: a delete that sees no user issues no
    request and changes nothing, whatever the store would answer.  No
    render offers the button in such a state. *)
Lemma deleteTodo_without_user (i : string) (r : Response unit) (s : Reconciler.State) :
  Reconciler.user s = None →
  Reconciler.deleteTodo_start i s = (s, None) ∧ Reconciler.deleteTodo i r s = s.
Proof.
  intros Hu. unfold Reconciler.deleteTodo, Reconciler.deleteTodo_start.
  by rewrite Hu.
Qed.

(** ** Runs of adds and the order of the list *)

Section order.
Import Reconciler.
Variable instant : string → Z.
Implicit Types (s : State) (o : AddOp) (l : list Todo.t).

(** A record later than everything in a sorted list goes to its head. *)
Lemma sortedDesc_cons_later (seen : list Z) t l :
  sortedDesc instant l →
  (∀ z, z ∈ instants instant l → z ∈ seen) →
  Forall (λ z', (z' < instant (Todo.created_at t))%Z) seen →
  sortedDesc instant (t :: l).
Proof.
  intros Hs Hsub Hlt. apply StronglySorted_cons. split; [|done].
  apply Forall_forall. intros x Hx.
  rewrite Forall_forall in Hlt.
  assert (instant (Todo.created_at x) < instant (Todo.created_at t))%Z; [|lia].
  apply Hlt, Hsub. unfold instants.
  by apply (list_elem_of_fmap_2 (λ t, instant (Todo.created_at t))).
Qed.

Lemma observe_before o s : todos (before (observe o s)) = todos s.
Proof. done. Qed.

Lemma observe_user o s : user (settled (observe o s)) = user s.
Proof.
  unfold observe, addTodo, addTodo_start. simpl.
  destruct (user s) eqn:Hu; [|done].
  destruct (JsString.falsy _); [done|]. simpl. by destruct (answer o).
Qed.

(** An add that passes the guard. *)
Lemma observe_accepted o s uid :
  user s = Some uid → JsString.trim (typed o) ≠ "" →
  placeholderId o ∉ ids (todos s) →
  todos (optimistic (observe o s)) = tempTodo (clock o) uid (typed o) :: todos s ∧
  todos (settled (observe o s))
  = match answer o with
    | Success data => data :: todos s
    | Error | Thrown => todos s
    end.
Proof.
  intros Hu Ht Hf. unfold observe. simpl.
  rewrite (addTodo_start_accepted (clock o) (setInputValue (typed o) s) uid Hu Ht).
  split; [done|]. unfold addTodo.
  rewrite (addTodo_start_accepted (clock o) (setInputValue (typed o) s) uid Hu Ht).
  destruct (answer o); simpl.
  - by apply (replaceById_placeholder (tempTodo (clock o) uid (typed o))).
  - by apply (removeById_placeholder (tempTodo (clock o) uid (typed o))).
  - by apply (removeById_placeholder (tempTodo (clock o) uid (typed o))).
Qed.

(** An add that the guard stops. *)
Lemma observe_rejected o s :
  ¬ is_Some (snd (addTodo_start (clock o) (before (observe o s)))) →
  todos (optimistic (observe o s)) = todos s ∧
  todos (settled (observe o s)) = todos s.
Proof.
  unfold observe, addTodo. simpl.
  destruct (addTodo_start (clock o) (setInputValue (typed o) s)) as [s1 [[rq tmp]|]] eqn:E.
  - simpl. intros H. exfalso. apply H. by eauto.
  - intros _. simpl. unfold addTodo_start in E. simpl in E.
    destruct (user s); [destruct (JsString.falsy _)|]; by inversion E.
Qed.

(** One add keeps the list sorted and the bookkeeping of [increasing]. *)
Lemma observe_sorted (known : list string) (seen : list Z) o s :
  sortedDesc instant (todos s) →
  (∀ i, i ∈ ids (todos s) → i ∈ known) →
  (∀ z, z ∈ instants instant (todos s) → z ∈ seen) →
  placeholderId o ∉ known →
  Forall (λ z, Forall (λ z', (z' < z)%Z) seen) (stamps instant o) →
  sortedDesc instant (todos (optimistic (observe o s))) ∧
  sortedDesc instant (todos (settled (observe o s))) ∧
  (∀ i, i ∈ ids (todos (settled (observe o s))) → i ∈ (storeIds o ++ known)%list) ∧
  (∀ z, z ∈ instants instant (todos (settled (observe o s))) → z ∈ (stamps instant o ++ seen)%list).
Proof.
  intros Hs Hk Hz Hp Hst.
  destruct (decide (is_Some (snd (addTodo_start (clock o) (before (observe o s))))))
    as [Hacc|Hrej].
  - apply addTodo_start_request in Hacc as [[uid Hu] Ht]. simpl in Hu, Ht.
    assert (placeholderId o ∉ ids (todos s)) as Hp' by (intros ?; apply Hp; auto).
    destruct (observe_accepted o s uid Hu Ht Hp') as [-> ->].
    unfold stamps in *. apply Forall_cons in Hst as [Hc Hd].
    split; [by apply (sortedDesc_cons_later seen)|].
    unfold storeIds. destruct (answer o) as [data| |]; simpl.
    + apply Forall_cons in Hd as [Hd _].
      split; [by apply (sortedDesc_cons_later seen)|]. split.
      * intros i Hi. change (i ∈ Todo.id data :: ids (todos s)) in Hi.
        apply elem_of_cons in Hi as [->|Hi]; apply elem_of_cons; [by left|right; auto].
      * intros z Hi.
        change (z ∈ instant (Todo.created_at data) :: instants instant (todos s)) in Hi.
        apply elem_of_cons in Hi as [->|Hi].
        -- apply elem_of_cons. right. apply elem_of_cons. by left.
        -- apply elem_of_cons. right. apply elem_of_cons. right. auto.
    + split; [done|]. split; [auto|]. intros z Hi. apply elem_of_cons. right. auto.
    + split; [done|]. split; [auto|]. intros z Hi. apply elem_of_cons. right. auto.
  - destruct (observe_rejected o s Hrej) as [-> ->].
    split; [done|]. split; [done|]. split.
    + intros i Hi. apply elem_of_app. right. auto.
    + intros z Hi. apply elem_of_app. right. auto.
Qed.

Lemma observations_sorted (ops : list AddOp) :
  ∀ (known : list string) (seen : list Z) s,
    sortedDesc instant (todos s) →
    (∀ i, i ∈ ids (todos s) → i ∈ known) →
    (∀ z, z ∈ instants instant (todos s) → z ∈ seen) →
    increasing instant known seen ops →
    Forall (λ ob,
      sortedDesc instant (todos (before ob)) ∧
      sortedDesc instant (todos (optimistic ob)) ∧
      sortedDesc instant (todos (settled ob)) ∧
      (is_Some (snd (addTodo_start (clock (op ob)) (before ob))) →
       (∃ uid, user (before ob) = Some uid ∧
               todos (optimistic ob)
               = tempTodo (clock (op ob)) uid (typed (op ob)) :: todos (before ob)) ∧
       todos (settled ob)
       = match answer (op ob) with
         | Success data => data :: todos (before ob)
         | Error | Thrown => todos (before ob)
         end))
      (observations ops s).
Proof.
  induction ops as [|o ops IH]; intros known seen s Hs Hk Hz Hinc; simpl.
  - apply Forall_nil_2.
  - destruct Hinc as (Hp & Hst & Hrest).
    destruct (observe_sorted known seen o s Hs Hk Hz Hp Hst) as (Ho & Hse & Hk' & Hz').
    apply Forall_cons. split.
    + split; [done|]. split; [done|]. split; [done|].
      intros Hacc. apply addTodo_start_request in Hacc as [[uid Hu] Ht].
      simpl in Hu, Ht.
      assert (placeholderId o ∉ ids (todos s)) as Hp' by (intros ?; apply Hp; auto).
      destruct (observe_accepted o s uid Hu Ht Hp') as [H1 H2].
      split; [by exists uid|]. exact H2.
    + by apply (IH (storeIds o ++ known)%list (stamps instant o ++ seen)%list).
Qed.

End order.

(** C5: start from a list sorted by [created_at], latest first, and run
    any sequence of adds, each answered before the next, whose timestamps
    strictly increase: the placeholder's and the confirmed record's
    [created_at] are later than every [created_at] of the starting list
    and of the adds before, and placeholder ids are locally unique
    ([increasing]).  Then the list is sorted, latest first, at every
    observation point: before each add, after its optimistic insert and
    after the store's answer.  Each add that passes the guard puts its
    placeholder first, a successful answer puts the confirmed record
    first in its place, a failure takes the placeholder out again. *)
Theorem addTodo_sequence_keeps_order (instant : string → Z)
    (ops : list AddOp) (s : Reconciler.State) :
  sortedDesc instant (Reconciler.todos s) →
  increasing instant (ids (Reconciler.todos s))
    (instants instant (Reconciler.todos s)) ops →
  Forall (λ ob,
    sortedDesc instant (Reconciler.todos (before ob)) ∧
    sortedDesc instant (Reconciler.todos (optimistic ob)) ∧
    sortedDesc instant (Reconciler.todos (settled ob)) ∧
    (is_Some (snd (Reconciler.addTodo_start (clock (op ob)) (before ob))) →
     (∃ uid, Reconciler.user (before ob) = Some uid ∧
             Reconciler.todos (optimistic ob)
             = Reconciler.tempTodo (clock (op ob)) uid (typed (op ob))
               :: Reconciler.todos (before ob)) ∧
     Reconciler.todos (settled ob)
     = match answer (op ob) with
       | Success data => data :: Reconciler.todos (before ob)
       | Error | Thrown => Reconciler.todos (before ob)
       end))
    (observations ops s).
Proof.
  intros Hs Hinc.
  by apply (observations_sorted instant ops (ids (Reconciler.todos s))
              (instants instant (Reconciler.todos s))).
Qed.

Lemma addTodo_sequence_keeps_order_witness :
  let instant := λ iso : string,
    match NilZero.int_of_string iso with Some n => Z.of_int n | None => 0%Z end in
  let t1 := Todo.mk "a" "u" "first" false "1" "1" in
  let t2 := Todo.mk "b" "u" "second" true "2" "2" in
  let data := Todo.mk "c" "u" "third" false "6" "6" in
  let s := Reconciler.Build_State [t2; t1] "" (Some "u") ∅ [] in
  let ops := [ Build_AddOp " third" (Build_Clock 7 "5" "5") (Success data);
               Build_AddOp "fourth" (Build_Clock 8 "7" "7") Error ] in
  (Reconciler.todos <$> (settled <$> observations ops s)
   = [[data; t2; t1]; [data; t2; t1]]) ∧
  Forall (λ ob, sortedDesc instant (Reconciler.todos (optimistic ob)) ∧
                sortedDesc instant (Reconciler.todos (settled ob)))
    (observations ops s).
Proof.
  intros instant t1 t2 data s ops. split; [reflexivity|].
  eapply Forall_impl; [apply (addTodo_sequence_keeps_order instant ops s)|].
  - apply StronglySorted_cons. split.
    + apply Forall_cons. split; [vm_compute; discriminate | apply Forall_nil_2].
    + apply StronglySorted_cons. split; [apply Forall_nil_2 | constructor].
  - simpl. repeat split.
    all: apply (bool_decide_unpack _); vm_compute; exact I.
  - intros ob (_ & Ho & Hs & _). exact (conj Ho Hs).
Defined.

(** ** The page without optimistic edits

    How [src/app/page.tsx] stands to the same properties: its feed handler
    treats UPDATE and DELETE as the reconciler does when nothing is
    suppressed, its handlers never touch the list themselves, and its
    INSERT has no existing-id check. *)

(** X17: on the page too an UPDATE or DELETE event delivered twice in a
    row gives the same state as delivered once. *)
Lemma Page_handleRealtimeChange_UPDATE_DELETE_idemp (p : Payload) (q : Page.State) :
  eventType p = "UPDATE" ∨ eventType p = "DELETE" →
  Page.handleRealtimeChange p (Page.handleRealtimeChange p q)
  = Page.handleRealtimeChange p q.
Proof.
  unfold Page.handleRealtimeChange, Page.setTodos.
  intros [-> | ->]; simpl; f_equal.
  - apply replaceById_idemp.
  - apply removeById_idemp.
Qed.

Lemma Page_handleRealtimeChange_UPDATE_lookup (p : Payload) (q : Page.State) n t :
  eventType p = "UPDATE" → Page.todos q !! n = Some t →
  Page.todos (Page.handleRealtimeChange p q) !! n
  = Some (if decide (Todo.id t = Todo.id (new p)) then new p else t).
Proof.
  intros He Hn. unfold Page.handleRealtimeChange. rewrite He. simpl.
  by apply replaceById_lookup.
Qed.

(** X18: the page's handlers never edit the list.  Whatever the store
    answers, [addTodo] leaves the list as it is, and the parts of
    [toggleTodo] and [deleteTodo] before the request leave the whole
    state as it is: on this page only the feed changes the list. *)
Lemma Page_handlers_leave_list (i : string) (r : Response unit) (q : Page.State) :
  Page.todos (Page.addTodo r q) = Page.todos q ∧
  fst (Page.toggleTodo_start i q) = q ∧
  fst (Page.deleteTodo_start i q) = q.
Proof.
  unfold Page.addTodo, Page.addTodo_start, Page.toggleTodo_start, Page.deleteTodo_start.
  repeat split.
  - destruct (Page.user q); [destruct (JsString.falsy _)|]; try done. by destruct r.
  - destruct (Page.user q); [destruct (findById _ _)|]; done.
  - by destruct (Page.user q).
Qed.

Example Page_INSERT_twice :
  let data := Todo.mk "1" "u" "a" false "2025" "2025" in
  let p := Build_Payload "INSERT" data data in
  Page.todos (Page.handleRealtimeChange p
                (Page.handleRealtimeChange p (Page.Build_State [] "" (Some "u"))))
  = [data; data].
Proof. reflexivity. Qed.

(** ** More on the change feed of the optimistic reconciler *)

Lemma ids_removeById_subset (i j : string) (l : list Todo.t) :
  j ∈ ids (removeById i l) → j ∈ ids l ∧ j ≠ i.
Proof.
  unfold ids, removeById. intros H.
  apply list_elem_of_fmap in H as (x & -> & Hx).
  apply list_elem_of_filter in Hx as [Hne Hin].
  split; [by apply list_elem_of_fmap_2 | done].
Qed.

Lemma NoDup_ids_removeById (i : string) (l : list Todo.t) :
  NoDup (ids l) → NoDup (ids (removeById i l)).
Proof.
  unfold removeById. induction l as [|x l IH]; [done|].
  unfold ids in *. rewrite fmap_cons. intros Hnd.
  apply NoDup_cons in Hnd as [Hx Hnd].
  destruct (decide (Todo.id x = i)) as [E|E].
  - rewrite filter_cons_False by (intros ?; done). by apply IH.
  - rewrite filter_cons_True by done. rewrite fmap_cons. apply NoDup_cons.
    split; [|by apply IH].
    intros Hin. apply Hx. by apply (ids_removeById_subset i) in Hin as [? _].
Qed.

Lemma handleRealtimeChange_not_INSERT (p : Payload) (s : Reconciler.State) :
  eventType p ≠ "INSERT" →
  Reconciler.todos (Reconciler.handleRealtimeChange p s)
  = feedTodos p s (Reconciler.todos s).
Proof.
  intros Hi. unfold feedTodos.
  destruct (decide (eventType p = "UPDATE")) as [E2|E2];
    [|destruct (decide (eventType p = "DELETE")) as [E3|E3]].
  - destruct (Reconciler.isLocalOperation _ _ s) eqn:El.
    + by rewrite handleRealtimeChange_echo by auto.
    + by apply handleRealtimeChange_UPDATE_todos.
  - destruct (Reconciler.isLocalOperation _ _ s) eqn:El.
    + by rewrite handleRealtimeChange_echo by auto.
    + by apply handleRealtimeChange_DELETE_todos.
  - unfold Reconciler.handleRealtimeChange. by rewrite !bool_decide_eq_false_2.
Qed.

(** X1: the feed handler keeps ids unique.  If no two entries of the list
    share an id, then after any event (INSERT, UPDATE, DELETE or an
    unknown kind, echo or not) still no two entries share an id. *)
Theorem handleRealtimeChange_keeps_ids_unique (p : Payload) (s : Reconciler.State) :
  NoDup (ids (Reconciler.todos s)) →
  NoDup (ids (Reconciler.todos (Reconciler.handleRealtimeChange p s))).
Proof.
  intros Hnd. destruct (decide (eventType p = "INSERT")) as [E1|E1].
  - unfold Reconciler.handleRealtimeChange. rewrite E1. simpl.
    destruct (Reconciler.isLocalOperation _ _ s); [done|]. simpl.
    destruct (findById _ _) eqn:Ef; [done|].
    apply findById_None in Ef. unfold ids in *. rewrite fmap_cons.
    apply NoDup_cons. by split.
  - rewrite (handleRealtimeChange_not_INSERT p s E1). unfold feedTodos.
    repeat case_decide; try done.
    + destruct (Reconciler.isLocalOperation _ _ s); [done|].
      by rewrite replaceById_ids_same.
    + destruct (Reconciler.isLocalOperation _ _ s); [done|].
      by apply NoDup_ids_removeById.
Qed.

Lemma handleRealtimeChange_keeps_ids_unique_witness :
  let t1 := Todo.mk "1" "u" "a" false "2024" "2024" in
  let n2 := Todo.mk "2" "u" "b" true "2025" "2025" in
  let s := Reconciler.Build_State [t1] "" (Some "u") ∅ [] in
  let p := Build_Payload "INSERT" n2 n2 in
  NoDup (ids (Reconciler.todos
                (Reconciler.handleRealtimeChange p (Reconciler.handleRealtimeChange p s)))).
Proof.
  intros t1 n2 s p.
  apply handleRealtimeChange_keeps_ids_unique, handleRealtimeChange_keeps_ids_unique.
  apply NoDup_cons. split; [apply not_elem_of_nil | apply NoDup_nil_2].
Defined.

(** X2: feed anomalies are ignored.  An event of an unknown kind, an
    UPDATE whose id is not in the list and a DELETE whose id is not in
    the list leave the whole state as it is. *)
Theorem handleRealtimeChange_anomaly_ignored (p : Payload) (s : Reconciler.State) :
  (eventType p ≠ "INSERT" ∧ eventType p ≠ "UPDATE" ∧ eventType p ≠ "DELETE") ∨
  (eventType p = "UPDATE" ∧ Todo.id (new p) ∉ ids (Reconciler.todos s)) ∨
  (eventType p = "DELETE" ∧ Todo.id (old p) ∉ ids (Reconciler.todos s)) →
  Reconciler.handleRealtimeChange p s = s.
Proof.
  intros H.
  destruct (handleRealtimeChange_frame p s) as (Hi & Hu & Ho & Htm).
  apply State_eq; try done.
  destruct H as [(H1 & H2 & H3) | [[He Hn] | [He Hn]]].
  - rewrite (handleRealtimeChange_not_INSERT p s H1). unfold feedTodos.
    by rewrite !decide_False.
  - rewrite handleRealtimeChange_not_INSERT by (rewrite He; done).
    unfold feedTodos. rewrite decide_True by done.
    destruct (Reconciler.isLocalOperation _ _ s); [done|].
    by apply replaceById_absent.
  - rewrite handleRealtimeChange_not_INSERT by (rewrite He; done).
    unfold feedTodos. rewrite decide_False by (rewrite He; done).
    rewrite decide_True by done.
    destruct (Reconciler.isLocalOperation _ _ s); [done|].
    by apply removeById_absent.
Qed.

Lemma handleRealtimeChange_anomaly_ignored_witness :
  let t1 := Todo.mk "1" "u" "a" false "2024" "2024" in
  let n2 := Todo.mk "2" "u" "b" true "2025" "2025" in
  let s := Reconciler.Build_State [t1] "" (Some "u") ∅ [] in
  Reconciler.handleRealtimeChange (Build_Payload "TRUNCATE" n2 n2) s = s ∧
  Reconciler.handleRealtimeChange (Build_Payload "DELETE" n2 n2) s = s.
Proof.
  intros t1 n2 s. split.
  - apply handleRealtimeChange_anomaly_ignored. left. repeat split; discriminate.
  - apply handleRealtimeChange_anomaly_ignored. right. right. split; [reflexivity|].
    apply (bool_decide_unpack _). vm_compute. exact I.
Defined.

(** ** The suppression set *)

Lemma operationKey_inj (i i' o o' : string) :
  o ∈ ["INSERT"; "UPDATE"; "DELETE"] → o' ∈ ["INSERT"; "UPDATE"; "DELETE"] →
  Reconciler.operationKey i o = Reconciler.operationKey i' o' → i = i' ∧ o = o'.
Proof.
  unfold Reconciler.operationKey. intros Ho Ho'.
  repeat (apply elem_of_cons in Ho as [->|Ho]);
    [| | |by apply elem_of_nil in Ho].
  all: repeat (apply elem_of_cons in Ho' as [->|Ho']);
    [| | |by apply elem_of_nil in Ho'].
  all: intros H; cbv in H; try discriminate H.
  all: by injection H as ->.
Qed.

(** X3: the keys of the three operation kinds never collide, so
    registering a local operation leaves every other pair of id and kind
    as it was: a local toggle of one todo never makes the feed skip a
    DELETE of it or an UPDATE of another todo. *)
Theorem addLocalOperation_other_key (i i' o o' : string) (s : Reconciler.State) :
  o ∈ ["INSERT"; "UPDATE"; "DELETE"] → o' ∈ ["INSERT"; "UPDATE"; "DELETE"] →
  (i, o) ≠ (i', o') →
  Reconciler.isLocalOperation i' o' (Reconciler.addLocalOperation i o s)
  = Reconciler.isLocalOperation i' o' s.
Proof.
  intros Ho Ho' Hne. unfold Reconciler.isLocalOperation. simpl.
  apply bool_decide_ext. rewrite elem_of_union, elem_of_singleton.
  split; [|by right]. intros [Heq|H]; [|done].
  exfalso. apply Hne. symmetry in Heq.
  by destruct (operationKey_inj i i' o o' Ho Ho' Heq) as [-> ->].
Qed.

Lemma addLocalOperation_other_key_witness :
  let t1 := Todo.mk "1" "u" "a" false "2024" "2024" in
  let s := Reconciler.Build_State [t1] "" (Some "u") ∅ [] in
  Reconciler.isLocalOperation "1" "DELETE" (Reconciler.toggleTodo "1" (Success ()) s)
  = false.
Proof.
  intros t1 s.
  change (Reconciler.toggleTodo "1" (Success ()) s)
    with (Reconciler.addLocalOperation "1" "UPDATE"
            (fst (Reconciler.toggleTodo_start "1" s))).
  rewrite addLocalOperation_other_key.
  - reflexivity.
  - apply (bool_decide_unpack _). vm_compute. exact I.
  - apply (bool_decide_unpack _). vm_compute. exact I.
  - discriminate.
Defined.

(** X6: a second registration of the same key does not get a window of
    its own.  Register a key, let [d1 < 5000] ms pass, register it again:
    once 5000 ms have passed since the first registration the first timer
    deletes the key, however recent the second registration is. *)
Theorem addLocalOperation_twice_window (i o : string) (d1 d2 : N) (s : Reconciler.State) :
  (d1 < 5000)%N → (5000 ≤ d1 + d2)%N →
  Reconciler.isLocalOperation i o
    (Reconciler.elapse d2
       (Reconciler.addLocalOperation i o
          (Reconciler.elapse d1 (Reconciler.addLocalOperation i o s))))
  = false.
Proof.
  intros H1 H2. unfold Reconciler.isLocalOperation. apply bool_decide_eq_false. simpl.
  intros Hin. apply elem_of_difference in Hin as [_ Hn]. apply Hn.
  rewrite elem_of_list_to_set. apply list_elem_of_fmap.
  exists ((5000 - d1)%N, Reconciler.operationKey i o). split; [done|].
  apply list_elem_of_filter. split; [simpl; lia|].
  apply elem_of_app. left.
  apply (list_elem_of_fmap_2'
           (λ tk : N * string, ((fst tk - d1)%N, snd tk)) _
           (5000%N, Reconciler.operationKey i o)); [|done].
  apply list_elem_of_filter. split; [simpl; lia|].
  apply elem_of_app. right. by apply list_elem_of_singleton.
Qed.

Lemma addLocalOperation_twice_window_witness :
  let s := Reconciler.Build_State [] "" (Some "u") ∅ [] in
  Reconciler.isLocalOperation "1" "UPDATE"
    (Reconciler.elapse 1000
       (Reconciler.addLocalOperation "1" "UPDATE"
          (Reconciler.elapse 4000 (Reconciler.addLocalOperation "1" "UPDATE" s))))
  = false.
Proof.
  intros s. apply addLocalOperation_twice_window; reflexivity.
Defined.

(** ** Toggles, deletes and their echoes *)

Lemma toggleTodo_success (i : string) (s : Reconciler.State) :
  is_Some (snd (Reconciler.toggleTodo_start i s)) →
  Reconciler.toggleTodo i (Success ()) s
  = Reconciler.addLocalOperation i "UPDATE"
      (Reconciler.setTodos (completeById i (λ x, negb (Todo.completed x))) s).
Proof.
  intros Hreq. apply toggleTodo_start_request in Hreq as [[uid Hu] [t Hf]].
  unfold Reconciler.toggleTodo. by rewrite (toggleTodo_start_accepted i s uid t Hu Hf).
Qed.

Lemma completeById_flip_twice (i : string) (l : list Todo.t) :
  completeById i (λ x, negb (Todo.completed x))
    (completeById i (λ x, negb (Todo.completed x)) l) = l.
Proof.
  unfold completeById. rewrite <- list_fmap_compose.
  rewrite <- (list_fmap_id l) at 2. apply list_fmap_ext. intros n x _. simpl.
  destruct (decide (Todo.id x = i)) as [E|E].
  - rewrite decide_True by done. destruct x as [? ? ? b ? ?]. simpl.
    unfold Todo.with_completed. simpl. by rewrite negb_involutive.
  - by rewrite decide_False.
Qed.

Lemma findById_replaceById_present (i : string) (r : Todo.t) (l : list Todo.t) :
  Todo.id r = i → i ∈ ids l → findById i (replaceById i r l) = Some r.
Proof.
  intros Hr. unfold findById, replaceById, ids.
  induction l as [|x l IH]; [by intros ?%elem_of_nil|].
  rewrite !fmap_cons. intros Hin. simpl.
  destruct (decide (Todo.id x = i)) as [E|E].
  - by rewrite bool_decide_eq_true_2.
  - rewrite bool_decide_eq_false_2 by done. apply IH.
    apply elem_of_cons in Hin as [Hin|Hin]; [congruence|done].
Qed.

(** X4: the echo of a confirmed toggle is skipped inside the window.
    After a toggle that was confirmed, an UPDATE event for the same id
    that arrives less than 5000 ms later changes nothing, whatever record
    it carries, unless a timer of an earlier registration of the same key
    runs out first. *)
Theorem toggleTodo_echo_suppressed (i : string) (d : N) (p : Payload)
    (s : Reconciler.State) :
  is_Some (snd (Reconciler.toggleTodo_start i s)) →
  (d < 5000)%N →
  Forall (λ tk, snd tk = Reconciler.operationKey i "UPDATE" → (d < fst tk)%N)
    (Reconciler.timers s) →
  eventType p = "UPDATE" → Todo.id (new p) = i →
  let s' := Reconciler.elapse d (Reconciler.toggleTodo i (Success ()) s) in
  Reconciler.handleRealtimeChange p s' = s'.
Proof.
  intros Hreq Hd Hold He Hid s'. subst s'.
  rewrite (toggleTodo_success i s Hreq).
  apply handleRealtimeChange_echo. right. left. split; [done|].
  rewrite Hid. by apply addLocalOperation_window.
Qed.

Lemma toggleTodo_echo_suppressed_witness :
  let t1 := Todo.mk "1" "u" "a" false "2024" "2024" in
  let n1 := Todo.mk "1" "u" "a" true "2024" "2026" in
  let s := Reconciler.Build_State [t1] "" (Some "u") ∅ [] in
  Reconciler.todos
    (Reconciler.handleRealtimeChange (Build_Payload "UPDATE" n1 n1)
       (Reconciler.elapse 4999 (Reconciler.toggleTodo "1" (Success ()) s)))
  = [Todo.mk "1" "u" "a" true "2024" "2024"].
Proof.
  intros t1 n1 s.
  rewrite (toggleTodo_echo_suppressed "1" 4999 (Build_Payload "UPDATE" n1 n1) s).
  - reflexivity.
  - vm_compute. eauto.
  - reflexivity.
  - apply Forall_nil_2.
  - reflexivity.
  - reflexivity.
Defined.

(** X5: once the window is over the echo is applied.  An UPDATE event
    for the toggled id that arrives 5000 ms or more after the
    confirmation puts the record it carries in the place of the entry;
    every other entry keeps its place and its content. *)
Theorem toggleTodo_late_echo_applied (i : string) (d : N) (p : Payload)
    (s : Reconciler.State) :
  is_Some (snd (Reconciler.toggleTodo_start i s)) →
  (5000 ≤ d)%N →
  eventType p = "UPDATE" → Todo.id (new p) = i →
  let s' := Reconciler.handleRealtimeChange p
              (Reconciler.elapse d (Reconciler.toggleTodo i (Success ()) s)) in
  findById i (Reconciler.todos s') = Some (new p) ∧
  (∀ n x, Reconciler.todos s !! n = Some x →
          Reconciler.todos s' !! n = Some (if decide (Todo.id x = i) then new p else x)).
Proof.
  intros Hreq Hd He Hid s'. subst s'.
  rewrite (toggleTodo_success i s Hreq).
  rewrite handleRealtimeChange_UPDATE_todos;
    [|done|rewrite Hid; by apply addLocalOperation_expired].
  simpl. rewrite Hid.
  assert (∀ n x, Reconciler.todos s !! n = Some x →
            replaceById i (new p)
              (completeById i (λ x0, negb (Todo.completed x0)) (Reconciler.todos s)) !! n
            = Some (if decide (Todo.id x = i) then new p else x)) as Hlk.
  { intros n x Hn.
    rewrite (replaceById_lookup _ _ _ _ _ (completeById_lookup _ _ _ _ _ Hn)).
    destruct (decide (Todo.id x = i)) as [E|E]; [by rewrite decide_True|].
    by rewrite decide_False. }
  split; [|exact Hlk].
  apply toggleTodo_start_request in Hreq as [_ Hf].
  apply findById_replaceById_present; [done|].
  rewrite completeById_ids. by apply findById_is_Some.
Qed.

Lemma toggleTodo_late_echo_applied_witness :
  let t1 := Todo.mk "1" "u" "a" false "2024" "2024" in
  let n1 := Todo.mk "1" "u" "a" true "2024" "2026" in
  let s := Reconciler.Build_State [t1] "" (Some "u") ∅ [] in
  findById "1"
    (Reconciler.todos
       (Reconciler.handleRealtimeChange (Build_Payload "UPDATE" n1 n1)
          (Reconciler.elapse 5000 (Reconciler.toggleTodo "1" (Success ()) s))))
  = Some n1.
Proof.
  intros t1 n1 s.
  apply (toggleTodo_late_echo_applied "1" 5000 (Build_Payload "UPDATE" n1 n1) s).
  - vm_compute. eauto.
  - reflexivity.
  - reflexivity.
  - reflexivity.
Defined.

(** X7: two confirmed toggles of the same id give back the list: every
    entry has its first [completed] again.  This holds in every state
    (without a user, or for an id that is not in the list, neither toggle
    does anything). *)
Theorem toggleTodo_twice (i : string) (s : Reconciler.State) :
  Reconciler.todos
    (Reconciler.toggleTodo i (Success ()) (Reconciler.toggleTodo i (Success ()) s))
  = Reconciler.todos s.
Proof.
  destruct (decide (is_Some (snd (Reconciler.toggleTodo_start i s)))) as [Hreq|Hno].
  - rewrite (toggleTodo_success i s Hreq).
    rewrite toggleTodo_success.
    + simpl. apply completeById_flip_twice.
    + apply toggleTodo_start_request in Hreq as [Hu [t Hf]].
      apply toggleTodo_start_request. split; [exact Hu|]. simpl.
      rewrite findById_completeById, Hf. simpl. by eauto.
  - assert (Reconciler.toggleTodo i (Success ()) s = s) as Hs; [|by rewrite !Hs].
    unfold Reconciler.toggleTodo, Reconciler.toggleTodo_start in *.
    destruct (Reconciler.user s); [destruct (findById i (Reconciler.todos s))|];
      try done.
    exfalso. apply Hno. simpl. by eauto.
Qed.

Lemma removeById_restore (i : string) (t : Todo.t) (l : list Todo.t) :
  NoDup (ids l) → findById i l = Some t → t :: removeById i l ≡ₚ l.
Proof.
  unfold findById, removeById, ids. induction l as [|x l IH]; [done|].
  rewrite fmap_cons. intros Hnd Hf. apply NoDup_cons in Hnd as [Hx Hnd].
  simpl in Hf. destruct (decide (Todo.id x = i)) as [E|E].
  - rewrite bool_decide_eq_true_2 in Hf by done. injection Hf as ->.
    rewrite filter_cons_False by (intros ?; done).
    pose proof (removeById_absent i l) as Hab. unfold removeById, ids in Hab.
    rewrite Hab; [done|]. by rewrite <- E.
  - rewrite bool_decide_eq_false_2 in Hf by done.
    rewrite filter_cons_True by done.
    rewrite Permutation_swap. f_equiv. by apply IH.
Qed.

(** X8: a failed delete loses nothing.  With one entry per id, after a
    delete whose request fails (error result or rejected promise) the
    list holds exactly the entries it held before; the deleted entry is
    now first, so the order can differ.  (Without a user or for an id
    that is not in the list the delete does nothing at all.) *)
Theorem deleteTodo_failure_permutation (i : string) (r : Response unit)
    (s : Reconciler.State) :
  NoDup (ids (Reconciler.todos s)) →
  r = Error ∨ r = Thrown →
  Reconciler.todos (Reconciler.deleteTodo i r s) ≡ₚ Reconciler.todos s ∧
  (∀ t rest, Reconciler.todos s = t :: rest → Todo.id t = i →
             Reconciler.todos (Reconciler.deleteTodo i r s) = Reconciler.todos s).
Proof.
  intros Hnd Hr. unfold Reconciler.deleteTodo, Reconciler.deleteTodo_start.
  destruct (Reconciler.user s) as [uid|]; [|done].
  destruct (findById i (Reconciler.todos s)) as [t|] eqn:Hf; [|done].
  assert (Reconciler.todos (Reconciler.deleteTodo_settle i t r
            (Reconciler.setTodos (removeById i) s))
          = t :: removeById i (Reconciler.todos s)) as ->
    by (by destruct Hr as [-> | ->]).
  split; [by apply removeById_restore|].
  intros t' rest Hl Hid. rewrite Hl in Hf, Hnd |- *.
  unfold findById in Hf. simpl in Hf. rewrite bool_decide_eq_true_2 in Hf by done.
  injection Hf as <-. unfold removeById. rewrite filter_cons_False by (intros ?; done).
  f_equal. apply removeById_absent. unfold ids in Hnd. rewrite fmap_cons in Hnd.
  apply NoDup_cons in Hnd as [Hx _]. by rewrite <- Hid.
Qed.

Lemma deleteTodo_failure_permutation_witness :
  let t1 := Todo.mk "1" "u" "a" false "2024" "2024" in
  let t2 := Todo.mk "2" "u" "b" false "2023" "2023" in
  let s := Reconciler.Build_State [t1; t2] "" (Some "u") ∅ [] in
  Reconciler.todos (Reconciler.deleteTodo "2" Error s) ≡ₚ [t1; t2] ∧
  Reconciler.todos (Reconciler.deleteTodo "2" Error s) = [t2; t1].
Proof.
  intros t1 t2 s. split; [|reflexivity].
  apply (deleteTodo_failure_permutation "2" Error s); [|by left].
  apply (bool_decide_unpack _). vm_compute. exact I.
Defined.

Lemma handleRealtimeChange_DELETE_absent (p : Payload) (s : Reconciler.State) :
  eventType p = "DELETE" → Todo.id (old p) ∉ ids (Reconciler.todos s) →
  Reconciler.handleRealtimeChange p s = s.
Proof.
  intros He Hn. destruct (handleRealtimeChange_frame p s) as (Hi & Hu & Ho & Htm).
  apply State_eq; try done.
  rewrite handleRealtimeChange_not_INSERT by (rewrite He; done).
  unfold feedTodos. rewrite decide_False by (rewrite He; done).
  rewrite decide_True by done.
  destruct (Reconciler.isLocalOperation _ _ s); [done|]. by apply removeById_absent.
Qed.

(** X9: the echo of a confirmed delete never changes anything.  After a
    delete that issued its request and was confirmed, a DELETE event for
    the same id leaves the state as it is after any delay: inside the
    window it is skipped as a local operation, later it finds no entry of
    that id. *)
Theorem deleteTodo_echo_no_change (i : string) (d : N) (p : Payload)
    (s : Reconciler.State) :
  is_Some (snd (Reconciler.deleteTodo_start i s)) →
  eventType p = "DELETE" → Todo.id (old p) = i →
  let s' := Reconciler.elapse d (Reconciler.deleteTodo i (Success ()) s) in
  (i ∉ ids (Reconciler.todos s')) ∧ Reconciler.handleRealtimeChange p s' = s'.
Proof.
  intros Hreq He Hid s'.
  assert (Reconciler.todos s' = removeById i (Reconciler.todos s)) as Ht.
  { subst s'. unfold Reconciler.deleteTodo, Reconciler.deleteTodo_start in *.
    destruct (Reconciler.user s); [destruct (findById i (Reconciler.todos s))|];
      simpl in *; try done; by destruct Hreq. }
  assert (i ∉ ids (Reconciler.todos s')) as Hgone
    by (rewrite Ht; apply removeById_gone).
  split; [done|]. apply handleRealtimeChange_DELETE_absent; [done|by rewrite Hid].
Qed.

Lemma deleteTodo_echo_no_change_witness :
  let t1 := Todo.mk "1" "u" "a" false "2024" "2024" in
  let s := Reconciler.Build_State [t1] "" (Some "u") ∅ [] in
  let s' := Reconciler.elapse 7000 (Reconciler.deleteTodo "1" (Success ()) s) in
  Reconciler.handleRealtimeChange (Build_Payload "DELETE" t1 t1) s' = s'.
Proof.
  intros t1 s s'.
  apply (deleteTodo_echo_no_change "1" 7000 (Build_Payload "DELETE" t1 t1) s).
  - vm_compute. eauto.
  - reflexivity.
  - reflexivity.
Defined.

(** ** A confirmation that finds no placeholder *)

Lemma addTodo_settle_absent_echo (temp data : Todo.t) (d : N) (p : Payload)
    (s : Reconciler.State) :
  Todo.id temp ∉ ids (Reconciler.todos s) →
  (d < 5000)%N →
  Forall (λ tk, snd tk = Reconciler.operationKey (Todo.id data) "INSERT" → (d < fst tk)%N)
    (Reconciler.timers s) →
  eventType p = "INSERT" → Todo.id (new p) = Todo.id data →
  let s' := Reconciler.elapse d (Reconciler.addTodo_settle temp (Success data) s) in
  Reconciler.todos s' = Reconciler.todos s ∧ Reconciler.handleRealtimeChange p s' = s'.
Proof.
  intros Hab Hd Hold He Hid s'. subst s'. split.
  - simpl. by apply replaceById_absent.
  - apply handleRealtimeChange_echo. left. split; [done|].
    rewrite Hid. simpl. by apply addLocalOperation_window.
Qed.

(** X10: the confirmation of an add only replaces.  If the placeholder
    is no longer in the list when the store confirms (a reload or a
    delete took it out), the confirmed record is not inserted, and its
    INSERT echo, arriving inside the window, is skipped: the list stays
    as it was, without the new record, unless the record's id was in the
    list already. *)
Theorem addTodo_settle_without_placeholder (temp data : Todo.t) (d : N) (p : Payload)
    (s : Reconciler.State) :
  Todo.id temp ∉ ids (Reconciler.todos s) →
  (d < 5000)%N →
  Forall (λ tk, snd tk = Reconciler.operationKey (Todo.id data) "INSERT" → (d < fst tk)%N)
    (Reconciler.timers s) →
  eventType p = "INSERT" → Todo.id (new p) = Todo.id data →
  Reconciler.todos (Reconciler.addTodo_settle temp (Success data) s)
  = Reconciler.todos s ∧
  Reconciler.todos
    (Reconciler.handleRealtimeChange p
       (Reconciler.elapse d (Reconciler.addTodo_settle temp (Success data) s)))
  = Reconciler.todos s.
Proof.
  intros Hab Hd Hold He Hid.
  destruct (addTodo_settle_absent_echo temp data d p s Hab Hd Hold He Hid) as [H1 H2].
  split; [exact H1|]. by rewrite H2.
Qed.

Lemma addTodo_settle_without_placeholder_witness :
  let temp := Todo.mk "temp_7" "u" "a" false "2025" "2025" in
  let data := Todo.mk "9" "u" "a" false "2025" "2025" in
  let s := Reconciler.Build_State [] "" (Some "u") ∅ [] in
  Reconciler.todos
    (Reconciler.handleRealtimeChange (Build_Payload "INSERT" data data)
       (Reconciler.elapse 100 (Reconciler.addTodo_settle temp (Success data) s)))
  = [].
Proof.
  intros temp data s.
  apply (addTodo_settle_without_placeholder temp data 100
           (Build_Payload "INSERT" data data) s).
  - apply not_elem_of_nil.
  - reflexivity.
  - apply Forall_nil_2.
  - reflexivity.
  - reflexivity.
Defined.

(** ** The progress counters *)

Lemma completedCount_cons (t : Todo.t) (l : list Todo.t) :
  completedCount (t :: l) = (if Todo.completed t then 1 else 0) + completedCount l.
Proof.
  unfold completedCount. destruct (Todo.completed t) eqn:E.
  - by rewrite filter_cons_True.
  - rewrite filter_cons_False; [done|]. by rewrite E.
Qed.

Lemma completedCount_completeById_absent (i : string) (f : Todo.t → bool)
    (l : list Todo.t) :
  i ∉ ids l → completedCount (completeById i f l) = completedCount l.
Proof.
  intros Hn. unfold completeById.
  replace ((λ t, if decide (Todo.id t = i) then Todo.with_completed (f t) t else t) <$> l)
    with l; [done|].
  rewrite <- (list_fmap_id l) at 1. apply list_fmap_ext. intros n x Hx. simpl.
  rewrite decide_False; [done|]. intros E. apply Hn. rewrite <- E.
  unfold ids. apply list_elem_of_fmap_2. apply list_elem_of_lookup. eauto.
Qed.

(** X11: the counters never disagree, and a toggle moves exactly one
    task across.  [completedCount] is at most [totalCount] in every list;
    with one entry per id, the optimistic flip of an entry [t] keeps
    [totalCount] and changes [completedCount] by one: up if [t] was open,
    down if it was completed. *)
Theorem toggleTodo_counters (i : string) (t : Todo.t) (s : Reconciler.State) :
  NoDup (ids (Reconciler.todos s)) →
  findById i (Reconciler.todos s) = Some t →
  is_Some (snd (Reconciler.toggleTodo_start i s)) →
  let l' := Reconciler.todos (fst (Reconciler.toggleTodo_start i s)) in
  totalCount l' = totalCount (Reconciler.todos s) ∧
  (completedCount l' ≤ totalCount l')%nat ∧
  (completedCount l' + (if Todo.completed t then 1 else 0)
   = completedCount (Reconciler.todos s) + (if Todo.completed t then 0 else 1))%nat.
Proof.
  intros Hnd Hf Hreq l'.
  apply toggleTodo_start_request in Hreq as [[uid Hu] _].
  subst l'. rewrite (toggleTodo_start_accepted i s uid t Hu Hf). simpl.
  split; [unfold totalCount, completeById; by rewrite length_fmap|].
  split; [unfold completedCount, totalCount; apply length_filter|].
  revert Hnd Hf. unfold findById, ids.
  induction (Reconciler.todos s) as [|x l IH]; [done|].
  rewrite fmap_cons. intros Hnd Hf. apply NoDup_cons in Hnd as [Hx Hnd].
  simpl in Hf. unfold completeById in *. rewrite fmap_cons.
  rewrite !completedCount_cons.
  destruct (decide (Todo.id x = i)) as [E|E].
  - rewrite bool_decide_eq_true_2 in Hf by done. injection Hf as ->.
    pose proof (completedCount_completeById_absent i
                  (λ x0, negb (Todo.completed x0)) l) as Hrest.
    unfold completeById, ids in Hrest. rewrite Hrest by (by rewrite <- E).
    simpl. destruct (Todo.completed t); simpl; lia.
  - rewrite bool_decide_eq_false_2 in Hf by done.
    specialize (IH Hnd Hf). destruct (Todo.completed x); simpl; lia.
Qed.

Lemma toggleTodo_counters_witness :
  let t1 := Todo.mk "1" "u" "a" false "2024" "2024" in
  let t2 := Todo.mk "2" "u" "b" true "2023" "2023" in
  let s := Reconciler.Build_State [t1; t2] "" (Some "u") ∅ [] in
  (completedCount (Reconciler.todos (fst (Reconciler.toggleTodo_start "2" s))) + 1
   = completedCount [t1; t2] + 0)%nat.
Proof.
  intros t1 t2 s.
  apply (toggleTodo_counters "2" t2 s).
  - apply (bool_decide_unpack _). vm_compute. exact I.
  - reflexivity.
  - vm_compute. eauto.
Defined.

(** ** Events about different todos *)

Lemma replaceById_comm (ra rb : Todo.t) (l : list Todo.t) :
  Todo.id ra ≠ Todo.id rb →
  replaceById (Todo.id ra) ra (replaceById (Todo.id rb) rb l)
  = replaceById (Todo.id rb) rb (replaceById (Todo.id ra) ra l).
Proof.
  intros Hne. unfold replaceById. rewrite <- !list_fmap_compose.
  apply list_fmap_ext. intros n x _. simpl.
  destruct (decide (Todo.id x = Todo.id rb)) as [Eb|Eb];
    destruct (decide (Todo.id x = Todo.id ra)) as [Ea|Ea].
  - congruence.
  - rewrite decide_False by congruence. by rewrite decide_True.
  - by rewrite decide_False.
  - by rewrite !decide_False.
Qed.

Lemma removeById_comm (a b : string) (l : list Todo.t) :
  removeById a (removeById b l) = removeById b (removeById a l).
Proof.
  unfold removeById. induction l as [|x l IH]; [done|].
  destruct (decide (Todo.id x = a)) as [Ea|Ea];
    destruct (decide (Todo.id x = b)) as [Eb|Eb].
  - by rewrite !filter_cons_False by (intros ?; done).
  - rewrite (filter_cons_True (λ todo, Todo.id todo ≠ b)) by done.
    rewrite !(filter_cons_False (λ todo, Todo.id todo ≠ a)) by (intros ?; done).
    done.
  - rewrite (filter_cons_True (λ todo, Todo.id todo ≠ a)) by done.
    rewrite !(filter_cons_False (λ todo, Todo.id todo ≠ b)) by (intros ?; done).
    done.
  - rewrite (filter_cons_True (λ todo, Todo.id todo ≠ b)) by done.
    rewrite !(filter_cons_True (λ todo, Todo.id todo ≠ a)) by done.
    rewrite (filter_cons_True (λ todo, Todo.id todo ≠ b)) by done.
    by rewrite IH.
Qed.

Lemma removeById_replaceById (a : string) (rb : Todo.t) (l : list Todo.t) :
  a ≠ Todo.id rb →
  removeById a (replaceById (Todo.id rb) rb l)
  = replaceById (Todo.id rb) rb (removeById a l).
Proof.
  intros Hne. unfold removeById, replaceById. induction l as [|x l IH]; [done|].
  rewrite fmap_cons.
  destruct (decide (Todo.id x = Todo.id rb)) as [Eb|Eb].
  - rewrite filter_cons_True by congruence.
    rewrite (filter_cons_True _ x) by congruence.
    rewrite fmap_cons, decide_True by done. by rewrite IH.
  - destruct (decide (Todo.id x = a)) as [Ea|Ea].
    + rewrite !filter_cons_False by (intros ?; done). exact IH.
    + rewrite !filter_cons_True by done.
      rewrite fmap_cons, decide_False by done. by rewrite IH.
Qed.

Lemma feedTodos_frame (p q : Payload) (s : Reconciler.State) (l : list Todo.t) :
  feedTodos p (Reconciler.handleRealtimeChange q s) l = feedTodos p s l.
Proof. unfold feedTodos. by rewrite !isLocalOperation_handleRealtimeChange. Qed.

(** X12: UPDATE and DELETE events about different ids commute.  Two
    events, each an UPDATE or a DELETE, that are about different ids give
    the same state in either order of delivery. *)
Theorem handleRealtimeChange_commute (p1 p2 : Payload) (s : Reconciler.State) :
  eventType p1 = "UPDATE" ∨ eventType p1 = "DELETE" →
  eventType p2 = "UPDATE" ∨ eventType p2 = "DELETE" →
  eventId p1 ≠ eventId p2 →
  Reconciler.handleRealtimeChange p1 (Reconciler.handleRealtimeChange p2 s)
  = Reconciler.handleRealtimeChange p2 (Reconciler.handleRealtimeChange p1 s).
Proof.
  intros H1 H2 Hne.
  assert (eventType p1 ≠ "INSERT") as N1 by (destruct H1 as [-> | ->]; done).
  assert (eventType p2 ≠ "INSERT") as N2 by (destruct H2 as [-> | ->]; done).
  destruct (handleRealtimeChange_frame p1 s) as (? & ? & ? & ?).
  destruct (handleRealtimeChange_frame p2 s) as (? & ? & ? & ?).
  destruct (handleRealtimeChange_frame p1 (Reconciler.handleRealtimeChange p2 s))
    as (? & ? & ? & ?).
  destruct (handleRealtimeChange_frame p2 (Reconciler.handleRealtimeChange p1 s))
    as (? & ? & ? & ?).
  apply State_eq; try congruence.
  rewrite !handleRealtimeChange_not_INSERT by done. rewrite !feedTodos_frame.
  unfold feedTodos, eventId in *.
  destruct H1 as [E1 | E1]; destruct H2 as [E2 | E2]; rewrite E1, E2 in *; simpl in *.
  all: destruct (Reconciler.isLocalOperation _ _ s);
    destruct (Reconciler.isLocalOperation _ _ s); try done.
  - by apply replaceById_comm.
  - symmetry. by apply removeById_replaceById.
  - by apply removeById_replaceById.
  - apply removeById_comm.
Qed.

Lemma handleRealtimeChange_commute_witness :
  let t1 := Todo.mk "1" "u" "a" false "2024" "2024" in
  let t2 := Todo.mk "2" "u" "b" false "2023" "2023" in
  let n1 := Todo.mk "1" "u" "a" true "2024" "2026" in
  let s := Reconciler.Build_State [t1; t2] "" (Some "u") ∅ [] in
  let p1 := Build_Payload "UPDATE" n1 t1 in
  let p2 := Build_Payload "DELETE" t2 t2 in
  Reconciler.todos (Reconciler.handleRealtimeChange p1 (Reconciler.handleRealtimeChange p2 s))
  = [n1] ∧
  Reconciler.todos (Reconciler.handleRealtimeChange p2 (Reconciler.handleRealtimeChange p1 s))
  = [n1].
Proof.
  intros t1 t2 n1 s p1 p2.
  rewrite <- (handleRealtimeChange_commute p1 p2 s).
  - split; reflexivity.
  - by left.
  - by right.
  - vm_compute. discriminate.
Defined.

(** ** Session and reload *)

(** X13: after a sign-out nothing can be edited.  When the listener gets
    a session without a user it empties the list, clears the user and
    issues no query (whatever user its [fetchTodos] closes over); in the
    state it leaves, [addTodo], [toggleTodo] and [deleteTodo] issue no
    request and change nothing, for any input text, id and answer.  When
    [getUser] finds no user the handlers are stopped in the same way and
    [loading] ends, but the list is left as it is. *)
Theorem signed_out_handlers_inert (closureUser : option string) (v : Session.State)
    (c : Clock) (i : string) (ra : Response Todo.t) (r : Response unit) :
  let s' := Session.core (fst (Session.onAuthStateChange closureUser None v)) in
  snd (Session.onAuthStateChange closureUser None v) = None ∧
  Reconciler.todos s' = [] ∧
  Reconciler.user s' = None ∧
  Reconciler.inputValue s' = Reconciler.inputValue (Session.core v) ∧
  snd (Reconciler.addTodo_start c s') = None ∧
  snd (Reconciler.toggleTodo_start i s') = None ∧
  snd (Reconciler.deleteTodo_start i s') = None ∧
  Reconciler.addTodo c ra s' = s' ∧
  Reconciler.toggleTodo i r s' = s' ∧
  Reconciler.deleteTodo i r s' = s' ∧
  let s0 := Session.core (Session.getUser_settle None v) in
  Session.loading (Session.getUser_settle None v) = false ∧
  Reconciler.todos s0 = Reconciler.todos (Session.core v) ∧
  snd (Reconciler.addTodo_start c s0) = None ∧
  snd (Reconciler.toggleTodo_start i s0) = None ∧
  snd (Reconciler.deleteTodo_start i s0) = None.
Proof. intros s'. subst s'. repeat split. Qed.

(** X14: what a reload can do.  A [fetchTodos] that sees a user ends with
    [todosLoading] false in every outcome; a failed one (error result or
    rejected promise) leaves the list as it is, a successful one replaces
    it by the rows fetched, by the empty list when [data] is null.  User,
    input box, [localOperations] and [loading] are never touched.  A
    [fetchTodos] that sees no user issues no query and changes nothing. *)
Theorem fetchTodos_outcomes (closureUser : option string)
    (r : Response (option (list Todo.t))) (v : Session.State) :
  let v' := Session.fetchTodos closureUser r v in
  (closureUser = None → v' = v ∧ snd (Session.fetchTodos_start closureUser v) = None) ∧
  (is_Some closureUser → Session.todosLoading v' = false) ∧
  (r = Error ∨ r = Thrown →
   Reconciler.todos (Session.core v') = Reconciler.todos (Session.core v)) ∧
  (∀ data, is_Some closureUser → r = Success data →
           Reconciler.todos (Session.core v') = default [] data) ∧
  Reconciler.user (Session.core v') = Reconciler.user (Session.core v) ∧
  Reconciler.inputValue (Session.core v') = Reconciler.inputValue (Session.core v) ∧
  Reconciler.localOperations (Session.core v')
  = Reconciler.localOperations (Session.core v) ∧
  Session.loading v' = Session.loading v.
Proof.
  intros v'. subst v'. unfold Session.fetchTodos, Session.fetchTodos_start.
  destruct closureUser as [uid|]; simpl.
  - split; [done|]. split; [done|]. split.
    { by intros [-> | ->]. }
    split; [by intros data _ ->|]. by destruct r.
  - split; [done|]. split; [by intros [? ?]|]. split; [done|].
    split; [by intros data [? ?]|]. done.
Qed.

(** X15: a reload between an add and its confirmation loses the new
    todo from view.  If the rows of a reload replace the list while the
    insert is in flight, and they do not hold the placeholder, then the
    confirmation inserts nothing and the INSERT echo, arriving inside the
    window, is skipped: the list is the fetched rows, and the new record
    is in it only if the reload already returned it. *)
Theorem reload_between_add_and_confirmation (v : Session.State) (c : Clock)
    (req : Request) (temp data : Todo.t) (rows : list Todo.t) (d : N) (p : Payload) :
  snd (Reconciler.addTodo_start c (Session.core v)) = Some (req, temp) →
  Todo.id temp ∉ ids rows →
  (d < 5000)%N →
  Forall (λ tk, snd tk = Reconciler.operationKey (Todo.id data) "INSERT" → (d < fst tk)%N)
    (Reconciler.timers (Session.core v)) →
  eventType p = "INSERT" → Todo.id (new p) = Todo.id data →
  let v1 := Session.onCore (λ s, fst (Reconciler.addTodo_start c s)) v in
  let v2 := Session.fetchTodos_settle (Success (Some rows)) v1 in
  let s3 := Reconciler.addTodo_settle temp (Success data) (Session.core v2) in
  Reconciler.todos (Reconciler.handleRealtimeChange p (Reconciler.elapse d s3)) = rows ∧
  (Todo.id data ∉ ids rows →
   Todo.id data ∉
     ids (Reconciler.todos (Reconciler.handleRealtimeChange p (Reconciler.elapse d s3)))).
Proof.
  intros Hreq Hab Hd Hold He Hid v1 v2 s3.
  assert (Reconciler.todos (Session.core v2) = rows) as Hrows by done.
  assert (Reconciler.timers (Session.core v2) = Reconciler.timers (Session.core v))
    as Htm.
  { subst v2 v1. simpl. unfold Reconciler.addTodo_start.
    destruct (Reconciler.user (Session.core v)); [|done].
    by destruct (JsString.falsy _). }
  assert (Todo.id temp ∉ ids (Reconciler.todos (Session.core v2))) as Hab'
    by (by rewrite Hrows).
  assert (Forall (λ tk, snd tk = Reconciler.operationKey (Todo.id data) "INSERT"
                        → (d < fst tk)%N) (Reconciler.timers (Session.core v2)))
    as Hold' by (by rewrite Htm).
  destruct (addTodo_settle_absent_echo temp data d p (Session.core v2)
              Hab' Hd Hold' He Hid) as [H1 H2].
  fold s3 in H1, H2. rewrite H2, H1, Hrows. done.
Qed.

Lemma reload_between_add_and_confirmation_witness :
  let t1 := Todo.mk "1" "u" "a" false "2024" "2024" in
  let data := Todo.mk "9" "u" "b" false "2025" "2025" in
  let c := Build_Clock 7 "2025" "2025" in
  let temp := Reconciler.tempTodo c "u" "b" in
  let v := Session.Build_State (Reconciler.Build_State [t1] "b" (Some "u") ∅ [])
             false false in
  let v1 := Session.onCore (λ s, fst (Reconciler.addTodo_start c s)) v in
  let v2 := Session.fetchTodos_settle (Success (Some [t1])) v1 in
  Reconciler.todos
    (Reconciler.handleRealtimeChange (Build_Payload "INSERT" data data)
       (Reconciler.elapse 100
          (Reconciler.addTodo_settle temp (Success data) (Session.core v2))))
  = [t1].
Proof.
  intros t1 data c temp v v1 v2.
  apply (reload_between_add_and_confirmation v c (Insert "u" "b" false) temp data
           [t1] 100 (Build_Payload "INSERT" data data)).
  - reflexivity.
  - apply (bool_decide_unpack _). vm_compute. exact I.
  - reflexivity.
  - apply Forall_nil_2.
  - reflexivity.
  - reflexivity.
Defined.

Lemma fetchTodos_outcomes_witness :
  let t1 := Todo.mk "1" "u" "a" false "2024" "2024" in
  let v := Session.Build_State (Reconciler.Build_State [t1] "" (Some "u") ∅ [])
             false true in
  Session.todosLoading (Session.fetchTodos (Some "u") Error v) = false ∧
  Reconciler.todos (Session.core (Session.fetchTodos (Some "u") Error v)) = [t1] ∧
  Reconciler.todos (Session.core (Session.fetchTodos (Some "u") (Success None) v)) = [].
Proof.
  intros t1 v.
  destruct (fetchTodos_outcomes (Some "u") Error v) as (_ & H1 & H2 & _).
  destruct (fetchTodos_outcomes (Some "u") (Success None) v) as (_ & _ & _ & H3 & _).
  split; [apply H1; by eauto|]. split; [apply H2; by left|].
  apply (H3 None); by eauto.
Defined.

(** ** More on the page without optimistic edits *)

(** X16: the page's INSERT has no duplicate check.  Every INSERT event
    puts its record first, so the number of entries with the record's id
    grows by one each time, and ids stay unique exactly when the id was
    not in the list yet. *)
Theorem Page_INSERT_always_prepends (p : Payload) (q : Page.State) :
  eventType p = "INSERT" →
  let l' := Page.todos (Page.handleRealtimeChange p q) in
  l' = new p :: Page.todos q ∧
  countId (Todo.id (new p)) l' = S (countId (Todo.id (new p)) (Page.todos q)) ∧
  (NoDup (ids l') ↔ (Todo.id (new p) ∉ ids (Page.todos q)) ∧ NoDup (ids (Page.todos q))).
Proof.
  intros He l'. subst l'. unfold Page.handleRealtimeChange. rewrite He. simpl.
  split; [done|]. split.
  - by rewrite countId_cons, decide_True.
  - apply (NoDup_cons (Todo.id (new p)) (ids (Page.todos q))).
Qed.

Lemma Page_INSERT_always_prepends_witness :
  let data := Todo.mk "1" "u" "a" false "2025" "2025" in
  let p := Build_Payload "INSERT" data data in
  let q := Page.Build_State [data] "" (Some "u") in
  countId "1" (Page.todos (Page.handleRealtimeChange p q)) = 2.
Proof.
  intros data p q.
  destruct (Page_INSERT_always_prepends p q eq_refl) as (_ & H & _).
  exact H.
Defined.

Lemma Page_handleRealtimeChange_UPDATE_DELETE_idemp_witness :
  let t1 := Todo.mk "1" "u" "a" false "2024" "2024" in
  let t2 := Todo.mk "2" "u" "b" false "2023" "2023" in
  let q := Page.Build_State [t1; t2] "" (Some "u") in
  let p := Build_Payload "DELETE" t2 t2 in
  Page.handleRealtimeChange p (Page.handleRealtimeChange p q)
  = Page.Build_State [t1] "" (Some "u").
Proof.
  intros t1 t2 q p.
  rewrite (Page_handleRealtimeChange_UPDATE_DELETE_idemp p q (or_intror eq_refl)).
  reflexivity.
Defined.

(** ** The page before the remote store *)

Section local_page.
Import LocalPage.
Implicit Types (s : State) (i j : N).

Lemma LocalPage_State_eq s1 s2 :
  todos s1 = todos s2 → inputValue s1 = inputValue s2 → s1 = s2.
Proof. destruct s1, s2; simpl; intros; by subst. Qed.

End local_page.

(** X19: toggling twice is doing nothing.  Two toggles of the same id
    give back the very state they started from, for every state and id. *)
Theorem LocalPage_toggleTodo_twice (i : N) (s : LocalPage.State) :
  LocalPage.toggleTodo i (LocalPage.toggleTodo i s) = s.
Proof.
  apply LocalPage_State_eq; [|done]. simpl.
  rewrite <- list_fmap_compose. rewrite <- (list_fmap_id (LocalPage.todos s)) at 2.
  apply list_fmap_ext. intros n x _. simpl.
  destruct (decide (LocalPage.id x = i)) as [E|E]; simpl.
  - rewrite decide_True by done. simpl. rewrite negb_involutive. by destruct x.
  - by rewrite decide_False.
Qed.

(** X20: a delete takes the id out and nothing else.  After
    [deleteTodo i] no entry has id [i], the entries left are those of
    other ids in their old order, a second delete changes nothing, and
    with one entry per id and [i] in the list the total goes down by
    exactly one. *)
Theorem LocalPage_deleteTodo_removes (i : N) (s : LocalPage.State) :
  let s' := LocalPage.deleteTodo i s in
  (i ∉ LocalPage.id <$> LocalPage.todos s') ∧
  (∀ x, x ∈ LocalPage.todos s' ↔ x ∈ LocalPage.todos s ∧ LocalPage.id x ≠ i) ∧
  LocalPage.todos s' `sublist_of` LocalPage.todos s ∧
  LocalPage.deleteTodo i s' = s' ∧
  (NoDup (LocalPage.id <$> LocalPage.todos s) →
   i ∈ LocalPage.id <$> LocalPage.todos s →
   S (LocalPage.totalCount s') = LocalPage.totalCount s).
Proof.
  intros s'. subst s'. unfold LocalPage.deleteTodo, LocalPage.totalCount. simpl.
  split.
  { intros Hin. apply list_elem_of_fmap in Hin as (x & -> & Hx).
    by apply list_elem_of_filter in Hx as [Hne _]. }
  split.
  { intros x. rewrite list_elem_of_filter. tauto. }
  split; [apply sublist_filter|]. split.
  { apply LocalPage_State_eq; [|done]. simpl.
    rewrite list_filter_filter. apply list_filter_iff. tauto. }
  induction (LocalPage.todos s) as [|x l IH]; [by intros _ ?%elem_of_nil|].
  rewrite fmap_cons. intros Hnd Hin. apply NoDup_cons in Hnd as [Hx Hnd].
  destruct (decide (LocalPage.id x = i)) as [E|E].
  - rewrite filter_cons_False by (intros ?; done). simpl. f_equal.
    assert (filter (λ todo, LocalPage.id todo ≠ i) l = l) as ->; [|done].
    clear IH Hin Hnd. induction l as [|y l IHl]; [done|].
    rewrite fmap_cons in Hx. apply not_elem_of_cons in Hx as [Hy Hl].
    rewrite filter_cons_True by congruence. by rewrite IHl.
  - rewrite filter_cons_True by done. simpl. f_equal. apply IH; [done|].
    apply elem_of_cons in Hin as [Hin|Hin]; [congruence|done].
Qed.

(** X21: toggles and deletes commute.  Deleting one id and toggling
    another, or the same, gives the same state in either order. *)
Theorem LocalPage_toggle_delete_commute (i j : N) (s : LocalPage.State) :
  LocalPage.deleteTodo j (LocalPage.toggleTodo i s)
  = LocalPage.toggleTodo i (LocalPage.deleteTodo j s).
Proof.
  apply LocalPage_State_eq; [|done]. simpl.
  induction (LocalPage.todos s) as [|x l IH]; [done|].
  rewrite fmap_cons.
  destruct (decide (LocalPage.id x = j)) as [Ej|Ej].
  - rewrite (filter_cons_False _ x) by (intros ?; done).
    rewrite filter_cons_False; [exact IH|].
    intros Hne. apply Hne. by destruct (decide (LocalPage.id x = i)).
  - rewrite (filter_cons_True _ x) by done. rewrite fmap_cons.
    rewrite filter_cons_True; [by rewrite IH|].
    by destruct (decide (LocalPage.id x = i)).
Qed.

(** X22: what an add does to the counters.  [addTodo] never changes the
    number of completed tasks; it raises the total by one, puts the new
    task first with the trimmed text and clears the input box exactly
    when the trimmed text is not empty, and otherwise changes nothing. *)
Theorem LocalPage_addTodo_counters (now date : N) (s : LocalPage.State) :
  let s' := LocalPage.addTodo now date s in
  LocalPage.completedCount s' = LocalPage.completedCount s ∧
  (JsString.trim (LocalPage.inputValue s) = "" → s' = s) ∧
  (JsString.trim (LocalPage.inputValue s) ≠ "" →
   LocalPage.totalCount s' = S (LocalPage.totalCount s) ∧
   LocalPage.inputValue s' = "" ∧
   ∃ t, LocalPage.todos s' = t :: LocalPage.todos s ∧
        LocalPage.text t = JsString.trim (LocalPage.inputValue s) ∧
        LocalPage.completed t = false ∧ LocalPage.id t = now).
Proof.
  intros s'. subst s'. unfold LocalPage.addTodo, LocalPage.completedCount,
    LocalPage.totalCount.
  destruct (JsString.falsy _) eqn:E.
  - apply falsy_true in E. split; [done|]. split; [done|]. by intros ?.
  - apply falsy_false in E. simpl. split.
    + by rewrite filter_cons_False.
    + split; [by intros ?|]. intros _. split; [done|]. split; [done|]. by eexists.
Qed.

Lemma LocalPage_deleteTodo_removes_witness :
  let a := LocalPage.Build_Todo 1 "a" false 1 in
  let b := LocalPage.Build_Todo 2 "b" true 2 in
  let s := LocalPage.Build_State [b; a] "" in
  LocalPage.todos (LocalPage.deleteTodo 1 s) = [b] ∧
  S (LocalPage.totalCount (LocalPage.deleteTodo 1 s)) = 2.
Proof.
  intros a b s. split; [reflexivity|].
  destruct (LocalPage_deleteTodo_removes 1 s) as (_ & _ & _ & _ & H).
  apply H; apply (bool_decide_unpack _); vm_compute; exact I.
Defined.

Lemma LocalPage_addTodo_counters_witness :
  let b := LocalPage.Build_Todo 2 "b" true 2 in
  let s := LocalPage.Build_State [b] " buy milk " in
  LocalPage.totalCount (LocalPage.addTodo 3 3 s) = 2 ∧
  LocalPage.inputValue (LocalPage.addTodo 3 3 s) = "".
Proof.
  intros b s.
  destruct (LocalPage_addTodo_counters 3 3 s) as (_ & _ & H).
  destruct H as (H1 & H2 & _); [vm_compute; discriminate|].
  exact (conj H1 H2).
Defined.
